(** * EJSON: schema catalog, type predicates, coercion, validation

    A shallow embedding of [lib/EJSON.js].  JavaScript values are a tree
    type; functions of the module that can raise are given a result type
    with the raised error as second alternative.  The collaborators the
    module calls but does not define (the extended JSON codec and the
    z-schema engine) are section variables. *)

From Stdlib Require Import String Ascii List ZArith Bool Lia.
From Stdlib Require Import DecimalString DecimalNat DecimalFacts.
Import ListNotations.
Local Open Scope string_scope.
Local Open Scope Z_scope.

(** ** Values *)

(** The constructor an object was made by.  Dates and regular expressions
    keep their state in internal slots, which are not properties. *)
Inductive class : Set :=
| CObject                              (* object literal, [Object] *)
| CDate (time : Z)                     (* [new Date(..)], time value *)
| CRegExp (source flags : string)      (* [new RegExp(..)] *)
| CClass (name : string).              (* another constructor, e.g. mongodb's *)

(** Numbers are the decimals [m * 10^e] in reduced form: [e = 0], or
    [e < 0] and [m] is no multiple of ten.  Rounding to a double, the
    sign of zero and NaN are not part of the model. *)
Unset Elimination Schemes.
Inductive value : Set :=
| Undefined
| Null
| Bool (b : bool)
| Num (m e : Z)
| Str (s : string)
| Arr (elems : list value)
| Obj (c : class) (fields : list (string * value))   (* own enumerable properties, in order *)
| Builtin (name : string).                           (* a function of the host, opaque *)

Set Elimination Schemes.

Definition Int (n : Z) : value := Num n 0.

Section ValueInd.
Variable P : value -> Prop.
Hypothesis HUndefined : P Undefined.
Hypothesis HNull : P Null.
Hypothesis HBool : forall b, P (Bool b).
Hypothesis HNum : forall m e, P (Num m e).
Hypothesis HStr : forall s, P (Str s).
Hypothesis HArr : forall l, Forall P l -> P (Arr l).
Hypothesis HObj : forall c fs, Forall (fun kv => P (snd kv)) fs -> P (Obj c fs).
Hypothesis HBuiltin : forall n, P (Builtin n).

Fixpoint value_ind' (v : value) : P v :=
  match v with
  | Undefined => HUndefined
  | Null => HNull
  | Bool b => HBool b
  | Num m e => HNum m e
  | Str s => HStr s
  | Arr l =>
      HArr l ((fix all (l : list value) : Forall P l :=
                 match l with
                 | [] => Forall_nil _
                 | x :: r => Forall_cons x (value_ind' x) (all r)
                 end) l)
  | Obj c fs =>
      HObj c fs ((fix all (fs : list (string * value)) : Forall (fun kv => P (snd kv)) fs :=
                    match fs with
                    | [] => Forall_nil _
                    | kv :: r => Forall_cons kv (value_ind' (snd kv)) (all r)
                    end) fs)
  | Builtin n => HBuiltin n
  end.
End ValueInd.

(** ** Errors and results *)

(** What is thrown is an error object: its constructor and its message. *)

Inductive error : Set :=
| TypeError (msg : string)
| SyntaxError (msg : string)
| Error (msg : string).

Inductive result (A : Type) : Type :=
| Ok (a : A)
| Throw (e : error).
Arguments Ok {A} a.
Arguments Throw {A} e.

Definition bind {A B} (r : result A) (k : A -> result B) : result B :=
  match r with
  | Ok a => k a
  | Throw e => Throw e
  end.

Notation "x <- r ;; k" := (bind r (fun x => k))
  (at level 61, r at next level, right associativity).
Notation "' p <- r ;; k" := (bind r (fun x => let 'p := x in k))
  (at level 61, p pattern, r at next level, right associativity).

(** [e.message] *)
Definition message (e : error) : string :=
  match e with
  | TypeError m | SyntaxError m | Error m => m
  end.

(** ** Truthiness, [typeof], lodash's shape tests *)

Definition truthy (v : value) : bool :=
  match v with
  | Undefined | Null => false
  | Bool b => b
  | Num m _ => negb (m =? 0)
  | Str s => negb (s =? EmptyString)%string
  | Arr _ | Obj _ _ | Builtin _ => true
  end.

Definition nullish (v : value) : bool :=
  match v with
  | Undefined | Null => true
  | _ => false
  end.

Definition isArray (v : value) : bool :=
  match v with Arr _ => true | _ => false end.

(** [_.isObjectLike]: not null and [typeof] is ['object'] *)
Definition isObjectLike (v : value) : bool :=
  match v with Arr _ | Obj _ _ => true | _ => false end.

Definition isString (v : value) : bool :=
  match v with Str _ => true | _ => false end.

(** ** Property reads *)

(** Canonical array indices: ["0"], or digits without a leading zero. *)
Definition digit_of (a : ascii) : option nat :=
  let n := nat_of_ascii a in
  if ((48 <=? n) && (n <=? 57))%nat then Some (n - 48)%nat else None.

Fixpoint digits_value (s : string) (acc : nat) : option nat :=
  match s with
  | EmptyString => Some acc
  | String a r =>
      match digit_of a with
      | Some d => digits_value r (10 * acc + d)%nat
      | None => None
      end
  end.

Definition index_of_key (k : string) : option nat :=
  match k with
  | EmptyString => None
  | String "0" EmptyString => Some 0%nat
  | String "0" _ => None
  | _ => digits_value k 0%nat
  end.

Fixpoint assoc (k : string) (fs : list (string * value)) : option value :=
  match fs with
  | [] => None
  | (k', v) :: r => if (k =? k')%string then Some v else assoc k r
  end.

(** The members every value inherits from [Object.prototype]: the
    functions of the standard, kept by name; [__proto__], an accessor that
    answers with [Object.prototype] itself, an object with no enumerable
    property of its own; and [sync] and [future], accessors that the
    runtime of the module (leafnode, required at line 4) adds and that
    answer with a proxy object, whose members are not modelled.  Members
    of the other prototypes ([Array.prototype], [String.prototype], ...)
    are not modelled. *)
Definition object_prototype_functions : list string :=
  [ "constructor"; "hasOwnProperty"; "isPrototypeOf";
    "propertyIsEnumerable"; "toLocaleString"; "toString"; "valueOf";
    "__defineGetter__"; "__defineSetter__"; "__lookupGetter__";
    "__lookupSetter__" ].

Definition Object_prototype : value := Obj (CClass "Object.prototype") [].

Definition proxy : value := Obj (CClass "proxy") [].

Definition inherited (k : string) : value :=
  if (k =? "__proto__")%string then Object_prototype
  else if ((k =? "sync") || (k =? "future"))%string then proxy
  else if existsb (String.eqb k) object_prototype_functions then Builtin k
  else Undefined.

Definition char_at (s : string) (i : nat) : value :=
  match String.get i s with
  | Some a => Str (String a EmptyString)
  | None => Undefined
  end.

(** [o[k]] for [o] neither [null] nor [undefined]: own property first,
    then the prototype chain. *)
Definition prop (o : value) (k : string) : value :=
  match o with
  | Obj _ fs =>
      match assoc k fs with
      | Some v => v
      | None => inherited k
      end
  | Arr l =>
      if (k =? "length")%string then Int (Z.of_nat (List.length l))
      else match index_of_key k with
           | Some i => nth i l Undefined
           | None => inherited k
           end
  | Str s =>
      if (k =? "length")%string then Int (Z.of_nat (String.length s))
      else match index_of_key k with
           | Some i => char_at s i
           | None => inherited k
           end
  | _ => inherited k
  end.

(** [o.k] and [o[k]] in general: reading a property of [null] or
    [undefined] raises a [TypeError]. *)
Definition get_prop (o : value) (k : string) : result value :=
  if nullish o
  then Throw (TypeError ("Cannot read property '" ++ k ++ "' of null or undefined"))
  else Ok (prop o k).

(** [a && a.k]: the left operand when it is falsy. *)
Definition and_prop (a : value) (k : string) : value :=
  if truthy a then prop a k else a.

(** [===] on the values the module compares: a string read off an object
    against a string literal, and a value against [undefined]. *)
Definition strict_eq_str (v : value) (s : string) : bool :=
  match v with
  | Str t => (t =? s)%string
  | _ => false
  end.

Definition obj (fs : list (string * value)) : value := Obj CObject fs.

(** ** The host's [JSON.parse] *)

Module JSON.

Definition is_ws (a : ascii) : bool :=
  let n := nat_of_ascii a in
  ((n =? 32) || (n =? 9) || (n =? 10) || (n =? 13))%nat.

Fixpoint skip_ws (s : string) : string :=
  match s with
  | String a r => if is_ws a then skip_ws r else s
  | EmptyString => s
  end.

Fixpoint strip_prefix (p s : string) : option string :=
  match p, s with
  | EmptyString, _ => Some s
  | String a p', String b s' => if Ascii.eqb a b then strip_prefix p' s' else None
  | String _ _, EmptyString => None
  end.

(** *** Numbers *)

(** Digits read left to right: the value, the count, the rest. *)
Fixpoint digits (s : string) (acc : Z) (count : nat) : Z * nat * string :=
  match s with
  | String a r =>
      match digit_of a with
      | Some d => digits r (10 * acc + Z.of_nat d) (S count)
      | None => (acc, count, s)
      end
  | EmptyString => (acc, count, s)
  end.

Fixpoint reduce (fuel : nat) (m e : Z) : value :=
  match fuel with
  | O => Num m e
  | S fuel' =>
      if (e <? 0) && (m mod 10 =? 0) then reduce fuel' (m / 10) (e + 1) else Num m e
  end.

(** The number [m * 10^e] in reduced form. *)
Definition number (m e : Z) : value :=
  if m =? 0 then Num 0 0
  else if 0 <=? e then Num (m * 10 ^ e) 0
  else reduce (Z.to_nat (- e)) m e.

(** int: ["0"], or a non-zero digit and digits *)
Definition parse_int (s : string) : option (Z * string) :=
  match s with
  | String "0" r => Some (0, r)
  | _ => match digits s 0 0 with
         | (_, O, _) => None
         | (n, _, r) => Some (n, r)
         end
  end.

Definition parse_frac (m : Z) (s : string) : option (Z * Z * string) :=
  match s with
  | String "." r =>
      match digits r m 0 with
      | (_, O, _) => None
      | (m', c, r') => Some (m', - Z.of_nat c, r')
      end
  | _ => Some (m, 0, s)
  end.

Definition parse_exp (s : string) : option (Z * string) :=
  match s with
  | String a r =>
      if (Ascii.eqb a "e" || Ascii.eqb a "E")%bool then
        let '(sign, r1) :=
          match r with
          | String "+" r1 => (1, r1)
          | String "-" r1 => (-1, r1)
          | _ => (1, r)
          end in
        match digits r1 0 0 with
        | (_, O, _) => None
        | (x, _, r2) => Some (sign * x, r2)
        end
      else Some (0, s)
  | EmptyString => Some (0, s)
  end.

Definition parse_number (s : string) : option (value * string) :=
  let '(sign, s1) :=
    match s with
    | String "-" r => (-1, r)
    | _ => (1, s)
    end in
  match parse_int s1 with
  | None => None
  | Some (n, s2) =>
      match parse_frac n s2 with
      | None => None
      | Some (m, e1, s3) =>
          match parse_exp s3 with
          | None => None
          | Some (e2, s4) => Some (number (sign * m) (e1 + e2), s4)
          end
      end
  end.

(** *** Strings *)

Definition hex_of (a : ascii) : option nat :=
  let n := nat_of_ascii a in
  if ((48 <=? n) && (n <=? 57))%nat then Some (n - 48)%nat
  else if ((97 <=? n) && (n <=? 102))%nat then Some (n - 87)%nat
  else if ((65 <=? n) && (n <=? 70))%nat then Some (n - 55)%nat
  else None.

Definition hex4 (a b c d : ascii) : option nat :=
  match hex_of a, hex_of b, hex_of c, hex_of d with
  | Some x, Some y, Some z, Some w => Some (4096 * x + 256 * y + 16 * z + w)%nat
  | _, _, _, _ => None
  end.

(** Strings are byte strings; a code unit above 127 is kept in UTF-8. *)
Definition utf8 (cp : nat) : string :=
  let byte n := String (ascii_of_nat n) EmptyString in
  if (cp <? 128)%nat then byte cp
  else if (cp <? 2048)%nat then byte (192 + cp / 64)%nat ++ byte (128 + cp mod 64)%nat
  else byte (224 + cp / 4096)%nat ++ byte (128 + (cp / 64) mod 64)%nat
       ++ byte (128 + cp mod 64)%nat.

Definition dquote : ascii := ascii_of_nat 34.

Definition escape (a : ascii) : option ascii :=
  if Ascii.eqb a dquote then Some dquote
  else if Ascii.eqb a "\" then Some "\"%char
  else if Ascii.eqb a "/" then Some "/"%char
  else if Ascii.eqb a "b" then Some (ascii_of_nat 8)
  else if Ascii.eqb a "f" then Some (ascii_of_nat 12)
  else if Ascii.eqb a "n" then Some (ascii_of_nat 10)
  else if Ascii.eqb a "r" then Some (ascii_of_nat 13)
  else if Ascii.eqb a "t" then Some (ascii_of_nat 9)
  else None.

Definition prepend (p : string) (r : option (string * string)) : option (string * string) :=
  match r with
  | Some (body, rest) => Some (p ++ body, rest)
  | None => None
  end.

(** The characters after an opening quote, up to the closing one. *)
Fixpoint parse_chars (s : string) : option (string * string) :=
  match s with
  | EmptyString => None
  | String a r =>
      if Ascii.eqb a dquote then Some (EmptyString, r)
      else if Ascii.eqb a "\" then
        match r with
        | String "u" (String h1 (String h2 (String h3 (String h4 r')))) =>
            match hex4 h1 h2 h3 h4 with
            | Some cp => prepend (utf8 cp) (parse_chars r')
            | None => None
            end
        | String b r' =>
            match escape b with
            | Some c => prepend (String c EmptyString) (parse_chars r')
            | None => None
            end
        | EmptyString => None
        end
      else if (nat_of_ascii a <? 32)%nat then None
      else prepend (String a EmptyString) (parse_chars r)
  end.

(** *** Values *)

(** A later member of the same name replaces the value of the earlier one
    in its place.  The host's ordering of index-like names before the
    others is not modelled. *)
Fixpoint set_field (k : string) (v : value) (fs : list (string * value))
  : list (string * value) :=
  match fs with
  | [] => [(k, v)]
  | (k', v') :: r => if (k =? k')%string then (k, v) :: r else (k', v') :: set_field k v r
  end.

Definition literal (word : string) (v : value) (s : string) : option (value * string) :=
  match strip_prefix word s with
  | Some r => Some (v, r)
  | None => None
  end.

Fixpoint parse_value (fuel : nat) (s : string) : option (value * string) :=
  match fuel with
  | O => None
  | S fuel' =>
      match skip_ws s with
      | EmptyString => None
      | String a r as s' =>
          if Ascii.eqb a "n" then literal "null" Null s'
          else if Ascii.eqb a "t" then literal "true" (Bool true) s'
          else if Ascii.eqb a "f" then literal "false" (Bool false) s'
          else if Ascii.eqb a dquote then
            match parse_chars r with
            | Some (body, rest) => Some (Str body, rest)
            | None => None
            end
          else if Ascii.eqb a "[" then
            match skip_ws r with
            | String "]" rest => Some (Arr [], rest)
            | _ =>
                match parse_elements fuel' r with
                | Some (l, rest) => Some (Arr l, rest)
                | None => None
                end
            end
          else if Ascii.eqb a "{" then
            match skip_ws r with
            | String "}" rest => Some (obj [], rest)
            | _ =>
                match parse_members fuel' r [] with
                | Some (fs, rest) => Some (obj fs, rest)
                | None => None
                end
            end
          else parse_number s'
      end
  end

with parse_elements (fuel : nat) (s : string) : option (list value * string) :=
  match fuel with
  | O => None
  | S fuel' =>
      match parse_value fuel' s with
      | None => None
      | Some (v, rest) =>
          match skip_ws rest with
          | String "," rest' =>
              match parse_elements fuel' rest' with
              | Some (l, rest'') => Some (v :: l, rest'')
              | None => None
              end
          | String "]" rest' => Some ([v], rest')
          | _ => None
          end
      end
  end

with parse_members (fuel : nat) (s : string) (acc : list (string * value))
  : option (list (string * value) * string) :=
  match fuel with
  | O => None
  | S fuel' =>
      match skip_ws s with
      | String a r =>
          match (if Ascii.eqb a dquote then parse_chars r else None) with
          | None => None
          | Some (k, r1) =>
              match skip_ws r1 with
              | String ":" r2 =>
                  match parse_value fuel' r2 with
                  | None => None
                  | Some (v, r3) =>
                      let acc' := set_field k v acc in
                      match skip_ws r3 with
                      | String "," r4 => parse_members fuel' r4 acc'
                      | String "}" r4 => Some (acc', r4)
                      | _ => None
                      end
                  end
              | _ => None
              end
          end
      | EmptyString => None
      end
  end.

(** [JSON.parse(text)]: one value between optional white space, else a
    [SyntaxError].  Each step of the recursion reads at least one
    character, so twice the length of the text is fuel enough. *)
Definition parse (text : string) : result value :=
  match parse_value (2 * String.length text + 2) text with
  | Some (v, rest) =>
      match skip_ws rest with
      | EmptyString => Ok v
      | _ => Throw (SyntaxError "Unexpected token in JSON")
      end
  | None => Throw (SyntaxError "Unexpected token in JSON")
  end.

End JSON.

(** ** The module [lib/EJSON.js] *)

Module EJSON.

(** [_.map] and [_.mapValues] with a callback that may raise: the first
    error, in order, ends the traversal. *)
Section Traverse.
Context {A B : Type} (f : A -> result B).

Fixpoint map_result (l : list A) : result (list B) :=
  match l with
  | [] => Ok []
  | a :: r => b <- f a ;; r' <- map_result r ;; Ok (b :: r')
  end.
End Traverse.

(** *** [ejsonSchemas] *)

Definition typed (t : string) : value := obj [("type", Str t)].

Definition Date : value :=
  obj [ ("type", Str "object");
        ("required", Arr [Str "$date"]);
        ("properties", obj [("$date", typed "string")]);
        ("additionalProperties", Bool false) ].

Definition DBRef : value :=
  obj [ ("type", Str "object");
        ("required", Arr [Str "$ref"]);
        ("properties", obj [("$ref", typed "string"); ("$id", obj [])]);
        ("additionalProperties", Bool false) ].

Definition MaxKey : value :=
  obj [ ("type", Str "object");
        ("required", Arr [Str "$maxKey"]);
        ("properties",
          obj [("$maxKey", obj [("type", Str "number"); ("minimum", Int 1); ("maximum", Int 1)])]);
        ("additionalProperties", Bool false) ].

Definition MinKey : value :=
  obj [ ("type", Str "object");
        ("required", Arr [Str "$minKey"]);
        ("properties",
          obj [("$minKey", obj [("type", Str "number"); ("minimum", Int 1); ("maximum", Int 1)])]);
        ("additionalProperties", Bool false) ].

Definition Long : value :=
  obj [ ("type", Str "object");
        ("required", Arr [Str "$numberLong"]);
        ("properties", obj [("$numberLong", typed "string")]);
        ("additionalProperties", Bool false) ].

Definition ObjectId : value :=
  obj [ ("type", Str "object");
        ("required", Arr [Str "$oid"]);
        ("properties", obj [("$oid", typed "string")]);
        ("additionalProperties", Bool false) ].

Definition Regex : value :=
  obj [ ("type", Str "object");
        ("required", Arr [Str "$regex"]);
        ("properties", obj [("$regex", typed "string"); ("$options", typed "string")]);
        ("additionalProperties", Bool false) ].

Definition Timestamp : value :=
  obj [ ("type", Str "object");
        ("required", Arr [Str "$timestamp"]);
        ("properties",
          obj [("$timestamp",
                 obj [ ("type", Str "object");
                       ("properties", obj [("t", typed "number"); ("i", typed "number")]);
                       ("additionalProperties", Bool false) ])]);
        ("additionalProperties", Bool false) ].

Definition Undefined_ : value :=
  obj [ ("type", Str "object");
        ("required", Arr [Str "$undefined"]);
        ("properties", obj [("$undefined", typed "boolean")]);
        ("additionalProperties", Bool false) ].

Definition ejsonSchemas : value :=
  obj [ ("Date", Date); ("DBRef", DBRef); ("MaxKey", MaxKey); ("MinKey", MinKey);
        ("Long", Long); ("ObjectId", ObjectId); ("Regex", Regex);
        ("Timestamp", Timestamp); ("Undefined", Undefined_) ].

(** *** The type predicates *)

(** [obj instanceof C]: false on every primitive, never raises. *)
Definition instanceof_Date (v : value) : bool :=
  match v with Obj (CDate _) _ => true | _ => false end.

Definition instanceof_RegExp (v : value) : bool :=
  match v with Obj (CRegExp _ _) _ => true | _ => false end.

Definition isDate (v : value) : result bool := Ok (instanceof_Date v).

Definition bsontype_is (v : value) (tag : string) : result bool :=
  t <- get_prop v "_bsontype" ;; Ok (strict_eq_str t tag).

Definition isDBRef (v : value) : result bool := bsontype_is v "DBRef".
Definition isMaxKey (v : value) : result bool := bsontype_is v "MaxKey".
Definition isMinKey (v : value) : result bool := bsontype_is v "MinKey".
Definition isLong (v : value) : result bool := bsontype_is v "Long".
Definition isObjectId (v : value) : result bool := bsontype_is v "ObjectID".
Definition isRegex (v : value) : result bool := Ok (instanceof_RegExp v).
Definition isTimestamp (v : value) : result bool := bsontype_is v "Timestamp".

Definition isUndefined (v : value) : result bool :=
  Ok (match v with Undefined => true | _ => false end).

(** *** [toJSONSchema] *)

(** Whether a value can be called. *)
Definition callable (v : value) : bool :=
  match v with Builtin _ => true | _ => false end.

(** The property key a value denotes when it is used as [o[v]], that is
    its conversion to a string.  A string denotes itself; an array the
    comma-joined string forms of its elements ([null] and [undefined]
    elements print as nothing); an object what its [toString], else its
    [valueOf], returns.  An object with an own [toString] that cannot be
    called has no string form: the inherited [valueOf] returns the object
    and the conversion raises a [TypeError].  [None] stands for a string
    that is no property name of [ejsonSchemas]: the decimal form of a
    number, a list with commas, the text of a function, the default
    string form of an object.  What the [toString] of another class
    answers for its instances, and what a host function kept as an own
    [toString] or [valueOf] answers, is not modelled: such a key is taken
    to name nothing. *)
Fixpoint key_of (v : value) : result (option string) :=
  match v with
  | Undefined => Ok (Some "undefined")
  | Null => Ok (Some "null")
  | Bool true => Ok (Some "true")
  | Bool false => Ok (Some "false")
  | Str s => Ok (Some s)
  | Num _ _ | Builtin _ => Ok None
  | Arr l =>
      ks <- map_result (fun x => if nullish x then Ok (Some EmptyString) else key_of x) l ;;
      Ok (match ks with
          | [] => Some EmptyString
          | [k] => k
          | _ :: _ :: _ => None
          end)
  | Obj _ fs =>
      match assoc "toString" fs with
      | None => Ok None
      | Some f =>
          if callable f then Ok None
          else
            match assoc "valueOf" fs with
            | Some g =>
                if callable g then Ok None
                else Throw (TypeError "Cannot convert object to primitive value")
            | None => Throw (TypeError "Cannot convert object to primitive value")
            end
      end
  end.

(** [self.ejsonSchemas[ty]] *)
Definition catalog_entry (ty : value) : result value :=
  k <- key_of ty ;;
  Ok (match k with
      | Some k => prop ejsonSchemas k
      | None => Undefined
      end).

(** [_.mapValues] on the own enumerable properties; the result is a plain
    object whatever the class of the argument. *)
Definition mapValues (f : value -> result value) (fs : list (string * value))
  : result value :=
  fs' <- map_result (fun '(k, v) => v' <- f v ;; Ok (k, v')) fs ;;
  Ok (obj fs').

Fixpoint toJSONSchema (schema : value) : result value :=
  match schema with
  | Arr l =>                                   (* _.isArray(schema) *)
      l' <- map_result toJSONSchema l ;;
      Ok (Arr l')
  | Obj _ fs =>                                (* _.isObjectLike(schema) *)
      let ty := prop schema "type" in
      schemaReplacement <- (if truthy ty then catalog_entry ty else Ok Undefined) ;;
      if truthy ty && truthy schemaReplacement
      then Ok schemaReplacement
      else mapValues toJSONSchema fs
  | _ => Ok schema
  end.

(** *** [coerce] *)

Section Collaborators.

(** [EJSON.deserialize] and [EJSON.stringify] of mongodb-extended-json *)
Variable deserialize : value -> result value.
Variable stringify : value -> string.

Fixpoint coerce (o schema : value) : result value :=
  if negb (truthy schema) then Ok o
  else
    match o with
    | Arr l =>                               (* _.isArray(obj) *)
        l' <- map_result (fun v => coerce v (and_prop schema "items")) l ;;
        Ok (Arr l')
    | Obj _ fs =>                            (* _.isObjectLike(obj) *)
        fs' <- map_result
                 (fun '(k, v) =>
                    v' <- coerce v (and_prop (and_prop schema "properties") k) ;;
                    Ok (k, v'))
                 fs ;;
        Ok (obj fs')
    | Str s =>                               (* typeof(obj) === 'string' *)
        let schemaType := prop schema "type" in
        if truthy schemaType then
          if strict_eq_str schemaType "number"
             || strict_eq_str schemaType "integer"
             || strict_eq_str schemaType "boolean"
          then JSON.parse s
          else if strict_eq_str schemaType "ObjectId"
          then deserialize (obj [("$oid", o)])
          else if strict_eq_str schemaType "Date"
          then deserialize (obj [("$date", o)])
          else Ok o
        else Ok o
    | _ => Ok o
    end.

(** *** [validate] *)

(** The z-schema engine: a validator object carries the report of its
    last run.  Each method either raises or returns its answer and the
    validator after the call. *)
Variable ZSchema : Type.
Variable new_ZSchema : ZSchema.
Variable validateSchema : ZSchema -> value -> result (bool * ZSchema).
Variable engine_validate : ZSchema -> value -> value -> result (bool * ZSchema).
Variable getLastErrors : ZSchema -> value.

Definition wrapped (schema o : value) (reason : string) : error :=
  Error ("Exception in compiling schema or validating ejson schema: "
         ++ stringify schema
         ++ " data: " ++ stringify o
         ++ " -- Reason: " ++ reason).

Definition validate (o schema : value) : result value :=
  let validator := new_ZSchema in
  schema <- toJSONSchema schema ;;             (* before the try block *)
  let attempt :=                             (* the try block *)
    '(isSchemaValid, validator) <- validateSchema validator schema ;;
    if negb isSchemaValid then Throw (Error "Invalid schema.")
    else engine_validate validator o schema in
  match attempt with
  | Throw e => Throw (wrapped schema o (message e))
  | Ok (valid, validator) =>
      if negb valid then
        first <- get_prop (getLastErrors validator) "0" ;;
        m <- get_prop first "message" ;;
        Ok (obj [("valid", Bool valid); ("error", m)])
      else Ok (obj [("valid", Bool valid)])
  end.

End Collaborators.

End EJSON.

(** ** The constructors behind [types] *)

(** What [new T(..)] builds for the types of the mongodb driver (js-bson):
    every instance carries its tag in the property [_bsontype], next to
    its data.  Dates and regular expressions are the host's. *)
Module Types.

Definition new_Date (time : Z) : value := Obj (CDate time) [].

Definition new_RegExp (source flags : string) : value := Obj (CRegExp source flags) [].

Definition new_DBRef (namespace : string) (oid db : value) : value :=
  Obj (CClass "DBRef")
    [("_bsontype", Str "DBRef"); ("namespace", Str namespace); ("oid", oid); ("db", db)].

Definition new_MaxKey : value := Obj (CClass "MaxKey") [("_bsontype", Str "MaxKey")].

Definition new_MinKey : value := Obj (CClass "MinKey") [("_bsontype", Str "MinKey")].

Definition new_Long (low high : Z) : value :=
  Obj (CClass "Long") [("_bsontype", Str "Long"); ("low_", Int low); ("high_", Int high)].

Definition new_ObjectId (id : string) : value :=
  Obj (CClass "ObjectID") [("_bsontype", Str "ObjectID"); ("id", Str id)].

Definition new_Timestamp (low high : Z) : value :=
  Obj (CClass "Timestamp")
    [("_bsontype", Str "Timestamp"); ("low_", Int low); ("high_", Int high)].

End Types.

(** ** A model of the schema engine *)

(** JSON Schema (draft 4) on the vocabulary the catalog is written in:
    [type], [required], [properties], [additionalProperties] as a boolean,
    [minimum], [maximum] and [items] as one schema.  Other keywords
    constrain nothing.  The validator keeps the issues of its last run. *)
Module Engine.

Definition type_names : list string :=
  ["array"; "boolean"; "integer"; "null"; "number"; "object"; "string"].

Definition known_type (t : string) : bool := existsb (String.eqb t) type_names.

Definition is_type (t : string) (doc : value) : bool :=
  match doc with
  | Arr _ => (t =? "array")%string
  | Bool _ => (t =? "boolean")%string
  | Num _ e => (t =? "number")%string || ((t =? "integer")%string && (e =? 0))
  | Null => (t =? "null")%string
  | Obj _ _ => (t =? "object")%string
  | Str _ => (t =? "string")%string
  | Undefined | Builtin _ => false
  end.

Definition type_of (doc : value) : string :=
  match doc with
  | Arr _ => "array"
  | Bool _ => "boolean"
  | Num _ e => if e =? 0 then "integer" else "number"
  | Null => "null"
  | Obj _ _ => "object"
  | Str _ => "string"
  | Undefined => "undefined"
  | Builtin _ => "function"
  end.

(** [m1 * 10^e1 <= m2 * 10^e2] *)
Definition num_le (m1 e1 m2 e2 : Z) : bool :=
  let e := Z.min e1 e2 in
  m1 * 10 ^ (e1 - e) <=? m2 * 10 ^ (e2 - e).

Definition check_type (arg doc : value) : list string :=
  match arg with
  | Str t =>
      if is_type t doc then []
      else ["Expected type " ++ t ++ " but found type " ++ type_of doc]
  | Arr ts =>
      if existsb (fun t => match t with Str t => is_type t doc | _ => false end) ts then []
      else ["Expected one of the listed types but found type " ++ type_of doc]
  | _ => []
  end.

Definition check_required (arg doc : value) : list string :=
  match arg, doc with
  | Arr names, Obj _ fs =>
      flat_map
        (fun n =>
           match n with
           | Str k =>
               match assoc k fs with
               | Some _ => []
               | None => ["Missing required property: " ++ k]
               end
           | _ => []
           end)
        names
  | _, _ => []
  end.

Definition check_additional (arg : value) (properties : option value) (doc : value)
  : list string :=
  match arg, doc with
  | Bool false, Obj _ fs =>
      let declared k :=
        match properties with
        | Some (Obj _ ps) => match assoc k ps with Some _ => true | None => false end
        | _ => false
        end in
      flat_map
        (fun '(k, _) => if declared k then [] else ["Additional properties not allowed: " ++ k])
        fs
  | _, _ => []
  end.

Definition check_minimum (arg doc : value) : list string :=
  match arg, doc with
  | Num m e, Num dm de =>
      if num_le m e dm de then [] else ["Value is less than minimum"]
  | _, _ => []
  end.

Definition check_maximum (arg doc : value) : list string :=
  match arg, doc with
  | Num m e, Num dm de =>
      if num_le dm de m e then [] else ["Value is greater than maximum"]
  | _, _ => []
  end.

(** The messages of the issues of [doc] against [schema], keyword by
    keyword in the order of the schema. *)
Fixpoint check (schema doc : value) {struct schema} : list string :=
  match schema with
  | Obj _ keywords =>
      (fix each_keyword (l : list (string * value)) : list string :=
         match l with
         | [] => []
         | (kw, arg) :: r =>
             ((if (kw =? "type")%string then check_type arg doc
              else if (kw =? "required")%string then check_required arg doc
              else if (kw =? "properties")%string then
                match arg, doc with
                | Obj _ ps, Obj _ fs =>
                    (fix each_property (ps : list (string * value)) : list string :=
                       match ps with
                       | [] => []
                       | (k, sub) :: ps' =>
                           (match assoc k fs with
                            | Some v => check sub v
                            | None => []
                            end ++ each_property ps')%list
                       end) ps
                | _, _ => []
                end
              else if (kw =? "additionalProperties")%string then
                check_additional arg (assoc "properties" keywords) doc
              else if (kw =? "minimum")%string then check_minimum arg doc
              else if (kw =? "maximum")%string then check_maximum arg doc
              else if (kw =? "items")%string then
                match doc with
                | Arr l => flat_map (check arg) l
                | _ => []
                end
              else [])
             ++ each_keyword r)%list
         end) keywords
  | _ => []
  end.

(** A schema the engine compiles: an object whose keywords have
    arguments of the right kind, down through [properties] and [items]. *)
Definition type_name_ok (t : value) : bool :=
  match t with
  | Str t => known_type t
  | _ => false
  end.

Fixpoint well_formed (schema : value) {struct schema} : bool :=
  match schema with
  | Obj _ keywords =>
      (fix each_keyword (l : list (string * value)) : bool :=
         match l with
         | [] => true
         | (kw, arg) :: r =>
             (if (kw =? "type")%string then
                match arg with
                | Arr (_ :: _ as ts) => forallb type_name_ok ts
                | _ => type_name_ok arg
                end
              else if (kw =? "required")%string then
                match arg with
                | Arr (_ :: _ as names) => forallb isString names
                | _ => false
                end
              else if (kw =? "properties")%string then
                match arg with
                | Obj _ ps =>
                    (fix each_property (ps : list (string * value)) : bool :=
                       match ps with
                       | [] => true
                       | (_, sub) :: ps' => well_formed sub && each_property ps'
                       end) ps
                | _ => false
                end
              else if (kw =? "additionalProperties")%string then
                match arg with
                | Bool _ => true
                | _ => well_formed arg
                end
              else if ((kw =? "minimum") || (kw =? "maximum"))%string then
                match arg with
                | Num _ _ => true
                | _ => false
                end
              else if (kw =? "items")%string then well_formed arg
              else true)
             && each_keyword r
         end) keywords
  | _ => false
  end.

(** The validator object: the messages of its last run. *)
Definition ZSchema : Type := list string.

Definition new_ZSchema : ZSchema := [].

Definition validateSchema (_ : ZSchema) (schema : value) : result (bool * ZSchema) :=
  if well_formed schema then Ok (true, [])
  else Ok (false, ["Schema is not a valid schema"]).

Definition validate (_ : ZSchema) (doc schema : value) : result (bool * ZSchema) :=
  match check schema doc with
  | [] => Ok (true, [])
  | issues => Ok (false, issues)
  end.

Definition getLastErrors (z : ZSchema) : value :=
  match z with
  | [] => Undefined
  | _ => Arr (map (fun m => obj [("message", Str m)]) z)
  end.

(** An engine out of contract: it rejects every document and reports
    nothing. *)
Definition silent_validate (_ : ZSchema) (doc schema : value) : result (bool * ZSchema) :=
  Ok (false, []).

(** An engine whose validation run raises. *)
Definition crashing_validate (_ : ZSchema) (doc schema : value) : result (bool * ZSchema) :=
  Throw (Error "Maximum call stack size exceeded").

End Engine.

(** ** Fixtures *)

(** A serializer that prints the kind of a value only: the text it
    produces plays no part in what follows. *)
Definition kind_stringify (v : value) : string := "<" ++ Engine.type_of v ++ ">".

(** [validate] on the model engine, and on the two faulty ones. *)
Definition validate_model : value -> value -> result value :=
  EJSON.validate kind_stringify Engine.ZSchema Engine.new_ZSchema
    Engine.validateSchema Engine.validate Engine.getLastErrors.

Definition validate_silent : value -> value -> result value :=
  EJSON.validate kind_stringify Engine.ZSchema Engine.new_ZSchema
    Engine.validateSchema Engine.silent_validate Engine.getLastErrors.

Definition validate_crashing : value -> value -> result value :=
  EJSON.validate kind_stringify Engine.ZSchema Engine.new_ZSchema
    Engine.validateSchema Engine.crashing_validate Engine.getLastErrors.

(** A codec that only tags what it is given: enough to run [coerce] where
    the decoder's answer does not matter. *)
Definition tagging_codec (wire : value) : result value :=
  match wire with
  | Obj _ fs => Ok (Obj (CClass "decoded") fs)
  | _ => Throw (TypeError "not a wire object")
  end.

(** The JSON type a schema type names, as a test on a parsed value. *)
Definition json_of_type (t : string) (v : value) : bool :=
  match v with
  | Num _ e => (t =? "number")%string || ((t =? "integer")%string && (e =? 0))
  | Bool _ => (t =? "boolean")%string
  | _ => false
  end.

(** The schema types under which [coerce] rewrites a string. *)
Definition coerced_types : list string :=
  ["number"; "integer"; "boolean"; "ObjectId"; "Date"].

(** A value that is neither a string nor object-like. *)
Definition is_scalar (v : value) : bool :=
  match v with
  | Undefined | Null | Bool _ | Num _ _ | Builtin _ => true
  | Str _ | Arr _ | Obj _ _ => false
  end.

(** A pure structural schema: plain objects, arrays and primitives, where
    a [type] is a primitive type name, a list of such names, or (for a
    property that is itself called [type]) a schema object, a plain one
    that has no [toString] of its own. *)
Definition plain (c : class) : bool :=
  match c with CObject => true | _ => false end.

Definition primitive_type (t : value) : bool :=
  match t with
  | Str t => Engine.known_type t
  | _ => false
  end.

Definition structural_type (ty : option value) : bool :=
  match ty with
  | None => true
  | Some (Str t) => Engine.known_type t
  | Some (Arr ts) => forallb primitive_type ts
  | Some (Obj c fs) =>
      plain c && match assoc "toString" fs with None => true | Some _ => false end
  | Some _ => false
  end.

Fixpoint structural (v : value) : bool :=
  match v with
  | Arr l => forallb structural l
  | Obj c fs =>
      plain c
      && structural_type (assoc "type" fs)
      && forallb (fun '(_, v) => structural v) fs
  | Builtin _ => false
  | _ => true
  end.

(** [{type: "object", properties: {tags: {type: "array", items: {type: "string"}}}}] *)
Definition tags_schema : value :=
  obj [("type", Str "object");
       ("properties",
         obj [("tags", obj [("type", Str "array"); ("items", EJSON.typed "string")])])].

(** The own properties of [ejsonSchemas]. *)
Definition catalog_fields : list (string * value) :=
  match EJSON.ejsonSchemas with
  | Obj _ fs => fs
  | _ => []
  end.

(** One fresh instance of every extended type, [undefined] for
    [Undefined]. *)
Definition fresh_instances : list (string * value) :=
  [ ("Date", Types.new_Date 0);
    ("DBRef", Types.new_DBRef "users" (Types.new_ObjectId "507f1f77bcf86cd799439011") Undefined);
    ("MaxKey", Types.new_MaxKey);
    ("MinKey", Types.new_MinKey);
    ("Long", Types.new_Long 1 0);
    ("ObjectId", Types.new_ObjectId "507f1f77bcf86cd799439011");
    ("Regex", Types.new_RegExp "a+" "g");
    ("Timestamp", Types.new_Timestamp 1 0);
    ("Undefined", Undefined) ].

Definition predicates : list (string * (value -> result bool)) :=
  [ ("Date", EJSON.isDate); ("DBRef", EJSON.isDBRef); ("MaxKey", EJSON.isMaxKey);
    ("MinKey", EJSON.isMinKey); ("Long", EJSON.isLong); ("ObjectId", EJSON.isObjectId);
    ("Regex", EJSON.isRegex); ("Timestamp", EJSON.isTimestamp);
    ("Undefined", EJSON.isUndefined) ].

(** The predicates that read [_bsontype]. *)
Definition tag_predicates : list (string * (value -> result bool)) :=
  [ ("DBRef", EJSON.isDBRef); ("MaxKey", EJSON.isMaxKey); ("MinKey", EJSON.isMinKey);
    ("Long", EJSON.isLong); ("ObjectId", EJSON.isObjectId);
    ("Timestamp", EJSON.isTimestamp) ].

Definition raises_TypeError {A} (r : result A) : bool :=
  match r with
  | Throw (TypeError _) => true
  | _ => false
  end.

(** [isT] answers on every one of the instances, and answers true on
    those of [T] alone. *)
Definition answers_exactly (instances : list (string * value))
  (T : string) (isT : value -> result bool) : bool :=
  forallb
    (fun '(U, inst) =>
       match isT inst with
       | Ok b => Bool.eqb b (T =? U)%string
       | Throw _ => false
       end)
    instances.

Definition answers_false (isT : value -> result bool) (v : value) : bool :=
  match isT v with
  | Ok b => negb b
  | Throw _ => false
  end.

(** ** The catalog as the table of the specification has it *)

(** The constraint a row puts on a value. *)
Inductive constraint : Set :=
| CString
| CBoolean
| CNumberEqual (n : Z)         (* number, must equal [n] *)
| CTimestampObject             (* object [{t: number, i: number}], no other keys *)
| CAny.                        (* any type, unconstrained *)

Record row : Set := {
  row_type : string;
  row_tag : string;                                 (* required tag key *)
  row_value : constraint;                           (* constraint on the tag's value *)
  row_optional : list (string * constraint)         (* extra optional keys *)
}.

Definition catalog_table : list row :=
  [ {| row_type := "Date"; row_tag := "$date"; row_value := CString; row_optional := [] |};
    {| row_type := "DBRef"; row_tag := "$ref"; row_value := CString;
       row_optional := [("$id", CAny)] |};
    {| row_type := "MaxKey"; row_tag := "$maxKey"; row_value := CNumberEqual 1;
       row_optional := [] |};
    {| row_type := "MinKey"; row_tag := "$minKey"; row_value := CNumberEqual 1;
       row_optional := [] |};
    {| row_type := "Long"; row_tag := "$numberLong"; row_value := CString;
       row_optional := [] |};
    {| row_type := "ObjectId"; row_tag := "$oid"; row_value := CString; row_optional := [] |};
    {| row_type := "Regex"; row_tag := "$regex"; row_value := CString;
       row_optional := [("$options", CString)] |};
    {| row_type := "Timestamp"; row_tag := "$timestamp"; row_value := CTimestampObject;
       row_optional := [] |};
    {| row_type := "Undefined"; row_tag := "$undefined"; row_value := CBoolean;
       row_optional := [] |} ].

Definition spec_constraint (k : constraint) : value :=
  match k with
  | CString => obj [("type", Str "string")]
  | CBoolean => obj [("type", Str "boolean")]
  | CNumberEqual n => obj [("type", Str "number"); ("minimum", Int n); ("maximum", Int n)]
  | CTimestampObject =>
      obj [ ("type", Str "object");
            ("properties",
              obj [("t", obj [("type", Str "number")]); ("i", obj [("type", Str "number")])]);
            ("additionalProperties", Bool false) ]
  | CAny => obj []
  end.

(** An object schema that requires the tag key alone, constrains the tag
    and the optional keys, and admits no other key. *)
Definition spec_fragment (r : row) : value :=
  obj [ ("type", Str "object");
        ("required", Arr [Str (row_tag r)]);
        ("properties",
          obj ((row_tag r, spec_constraint (row_value r))
               :: map (fun '(k, c) => (k, spec_constraint c)) (row_optional r)));
        ("additionalProperties", Bool false) ].

Definition spec_catalog : value :=
  obj (map (fun r => (row_type r, spec_fragment r)) catalog_table).

(** The issues the model engine finds in the wire object [{tag: v}]. *)
Definition tagged_issues (type tag : string) (v : value) : list string :=
  Engine.check (prop EJSON.ejsonSchemas type) (obj [(tag, v)]).

(** The names of the catalog. *)
Definition catalog_names : list string := map fst catalog_fields.

(** The string leaves of a document, left to right. *)
Fixpoint strings (v : value) : list string :=
  match v with
  | Str s => [s]
  | Arr l => flat_map strings l
  | Obj _ fs => flat_map (fun '(_, v) => strings v) fs
  | _ => []
  end.

(** A document of plain objects, arrays and scalars with no string in
    it. *)
Fixpoint string_free (v : value) : bool :=
  match v with
  | Str _ => false
  | Arr l => forallb string_free l
  | Obj c fs =>
      match c with CObject => true | _ => false end
      && forallb (fun '(_, v) => string_free v) fs
  | _ => true
  end.

(** The decimal numeral of a natural number, without leading zero. *)
Definition numeral (n : nat) : string := NilEmpty.string_of_uint (Nat.to_uint n).

(** The one key a fragment requires, and the keys it declares. *)
Definition required_tag (fragment : value) : option string :=
  match prop fragment "required" with
  | Arr [Str tag] => Some tag
  | _ => None
  end.

Definition declared (fragment : value) (k : string) : bool :=
  match prop fragment "properties" with
  | Obj _ ps => match assoc k ps with Some _ => true | None => false end
  | _ => false
  end.

(** A shorthand schema: a structural schema in which a node may also
    carry the name of a catalog entry as its [type]; such a node may have
    any other fields. *)
Definition catalog_name (t : string) : bool := existsb (String.eqb t) catalog_names.

Definition names_catalog_entry (ty : option value) : bool :=
  match ty with
  | Some (Str t) => catalog_name t
  | _ => false
  end.

Fixpoint shorthand (v : value) : bool :=
  match v with
  | Arr l => forallb shorthand l
  | Obj c fs =>
      names_catalog_entry (assoc "type" fs)
      || (plain c
          && structural_type (assoc "type" fs)
          && forallb (fun '(_, v) => shorthand v) fs)
  | Builtin _ => false
  | _ => true
  end.

(** [leafwise o r]: [r] is [o] but for its string leaves, which may have
    become any value, and for the class of its objects, which may have
    become the plain one.  Scalars are the same, arrays have the same
    length, objects the same keys in the same order. *)
Unset Elimination Schemes.
Inductive leafwise : value -> value -> Prop :=
| leafwise_string s r : leafwise (Str s) r
| leafwise_scalar o : is_scalar o = true -> leafwise o o
| leafwise_array l l' : Forall2 leafwise l l' -> leafwise (Arr l) (Arr l')
| leafwise_object c c' fs fs' :
    c' = c \/ c' = CObject ->
    Forall2 (fun kv kv' => fst kv = fst kv' /\ leafwise (snd kv) (snd kv')) fs fs' ->
    leafwise (Obj c fs) (Obj c' fs').
Set Elimination Schemes.

(** * Properties *)

(** ** [coerce] *)

Section CoerceFacts.
Variable deserialize : value -> result value.
Local Abbreviation coerce := (EJSON.coerce deserialize).

Lemma coerce_falsy o schema :
  truthy schema = false -> coerce o schema = Ok o.
Proof.
  intros H. destruct o; cbn; rewrite H; reflexivity.
Qed.

Lemma coerce_arr l schema :
  truthy schema = true ->
  coerce (Arr l) schema
  = (l' <- EJSON.map_result (fun v => coerce v (and_prop schema "items")) l ;; Ok (Arr l')).
Proof. intros H. cbn. rewrite H. reflexivity. Qed.

Lemma coerce_obj c fs schema :
  truthy schema = true ->
  coerce (Obj c fs) schema
  = (fs' <- EJSON.map_result
              (fun '(k, v) =>
                 v' <- coerce v (and_prop (and_prop schema "properties") k) ;;
                 Ok (k, v'))
              fs ;;
     Ok (obj fs')).
Proof. intros H. cbn. rewrite H. reflexivity. Qed.

End CoerceFacts.

(** *** Traversals *)

Section TraverseFacts.
Context {A B : Type} (f : A -> result B).

Lemma map_result_length l l' :
  EJSON.map_result f l = Ok l' -> List.length l' = List.length l.
Proof.
  revert l'. induction l as [|a r IH]; intros l' H; cbn in H.
  - inversion H. reflexivity.
  - destruct (f a) as [b|e]; cbn in H; [|discriminate].
    destruct (EJSON.map_result f r) as [r'|e]; cbn in H; [|discriminate].
    inversion H. cbn. f_equal. apply IH. reflexivity.
Qed.

Lemma map_result_nth l l' i a :
  EJSON.map_result f l = Ok l' -> nth_error l i = Some a ->
  exists b, f a = Ok b /\ nth_error l' i = Some b.
Proof.
  revert l' i. induction l as [|x r IH]; intros l' i H Hi.
  - destruct i; discriminate.
  - cbn in H. destruct (f x) as [b|e] eqn:Hx; cbn in H; [|discriminate].
    destruct (EJSON.map_result f r) as [r'|e] eqn:Hr; cbn in H; [|discriminate].
    inversion H; subst l'. destruct i as [|i]; cbn in *.
    + inversion Hi; subst. exists b. split; [assumption | reflexivity].
    + apply (IH r' i eq_refl Hi).
Qed.

End TraverseFacts.

Lemma map_result_same {A} (f : A -> result A) l :
  (forall a, In a l -> f a = Ok a) -> EJSON.map_result f l = Ok l.
Proof.
  induction l as [|a r IH]; intros H; cbn.
  - reflexivity.
  - rewrite (H a (or_introl eq_refl)). cbn.
    rewrite IH by (intros; apply H; right; assumption). reflexivity.
Qed.

Lemma strict_eq_str_true v s : strict_eq_str v s = true <-> v = Str s.
Proof.
  destruct v; cbn; try (split; [discriminate | discriminate]).
  rewrite String.eqb_eq. split; [intros ->; reflexivity | intros H; inversion H; reflexivity].
Qed.

Lemma strict_eq_str_false v s : v <> Str s -> strict_eq_str v s = false.
Proof.
  intros H. destruct (strict_eq_str v s) eqn:E; [|reflexivity].
  apply strict_eq_str_true in E. contradiction.
Qed.

(** C7: [coerce(obj, undefined)] is [obj] for every [obj], and so is
    [coerce(obj, schema)] for every falsy [schema]; the test on the schema
    comes before the tests on the shape of [obj], so the law holds for
    arrays, objects and strings alike. *)
Theorem coerce_without_schema :
  forall deserialize o,
    EJSON.coerce deserialize o Undefined = Ok o
    /\ forall schema, truthy schema = false -> EJSON.coerce deserialize o schema = Ok o.
Proof.
  intros deserialize o. split.
  - apply coerce_falsy. reflexivity.
  - intros schema H. apply coerce_falsy. exact H.
Qed.

Lemma coerce_without_schema_witness :
  truthy (Int 0) = false
  /\ EJSON.coerce tagging_codec (Arr [Str "1"]) (Int 0) = Ok (Arr [Str "1"]).
Proof.
  split.
  - reflexivity.
  - apply (proj2 (coerce_without_schema tagging_codec (Arr [Str "1"]))). reflexivity.
Defined.

(** *** String leaves *)

Lemma coerce_str deserialize s schema :
  truthy schema = true ->
  EJSON.coerce deserialize (Str s) schema
  = let schemaType := prop schema "type" in
    if truthy schemaType then
      if strict_eq_str schemaType "number"
         || strict_eq_str schemaType "integer"
         || strict_eq_str schemaType "boolean"
      then JSON.parse s
      else if strict_eq_str schemaType "ObjectId"
      then deserialize (obj [("$oid", Str s)])
      else if strict_eq_str schemaType "Date"
      then deserialize (obj [("$date", Str s)])
      else Ok (Str s)
    else Ok (Str s).
Proof. intros H. cbn. rewrite H. reflexivity. Qed.

(** C2, as the code has it: for a string [obj] and a truthy schema node,
    a [type] of ["number"], ["integer"] or ["boolean"] makes [coerce]
    return whatever [JSON.parse(obj)] returns, of whatever JSON type, and
    raise what it raises (a syntax error exactly when [obj] is no JSON
    text); a [type] of ["ObjectId"] (["Date"]) makes it return the
    decoder's answer on [{$oid: obj}] ([{$date: obj}]); with any other
    type, or none, the string comes back unchanged. *)
Theorem coerce_string_leaf :
  forall deserialize s schema,
    truthy schema = true ->
    let ty := prop schema "type" in
    (ty = Str "number" \/ ty = Str "integer" \/ ty = Str "boolean" ->
     EJSON.coerce deserialize (Str s) schema = JSON.parse s)
    /\ (ty = Str "ObjectId" ->
        EJSON.coerce deserialize (Str s) schema = deserialize (obj [("$oid", Str s)]))
    /\ (ty = Str "Date" ->
        EJSON.coerce deserialize (Str s) schema = deserialize (obj [("$date", Str s)]))
    /\ ((forall t, In t coerced_types -> ty <> Str t) ->
        EJSON.coerce deserialize (Str s) schema = Ok (Str s)).
Proof.
  intros deserialize s schema H ty.
  rewrite (coerce_str deserialize s schema H). fold ty. cbv zeta.
  repeat split.
  - intros [E | [E | E]]; rewrite E; reflexivity.
  - intros E. rewrite E. reflexivity.
  - intros E. rewrite E. reflexivity.
  - intros Hno.
    rewrite !strict_eq_str_false by (apply Hno; cbn; tauto).
    cbn. destruct (truthy ty); reflexivity.
Qed.

Lemma coerce_string_leaf_witness :
  truthy (EJSON.typed "integer") = true
  /\ EJSON.coerce tagging_codec (Str "42") (EJSON.typed "integer") = JSON.parse "42".
Proof.
  split.
  - reflexivity.
  - apply (proj1 (coerce_string_leaf tagging_codec "42" (EJSON.typed "integer") eq_refl)).
    right. left. reflexivity.
Defined.

(** C2 as stated fails: ["true"] is not JSON for a number, yet under
    [{type: "number"}] it is parsed and returned, not refused. *)
Lemma coerce_string_parse_untyped :
  (forall v, JSON.parse "true" = Ok v -> json_of_type "number" v = false)
  /\ EJSON.coerce tagging_codec (Str "true") (EJSON.typed "number") = Ok (Bool true).
Proof.
  split.
  - intros v H. vm_compute in H. inversion H. reflexivity.
  - vm_compute. reflexivity.
Qed.

(** *** Shape *)

Lemma coerce_fields_keys deserialize schema fs fs' :
  EJSON.map_result
    (fun '(k, v) =>
       v' <- EJSON.coerce deserialize v (and_prop (and_prop schema "properties") k) ;;
       Ok (k, v'))
    fs = Ok fs' ->
  map fst fs' = map fst fs.
Proof.
  revert fs'. induction fs as [|[k v] r IH]; intros fs' H; cbn in H.
  - inversion H. reflexivity.
  - destruct (EJSON.coerce deserialize v _) as [v'|e]; cbn in H; [|discriminate].
    destruct (EJSON.map_result _ r) as [r'|e]; cbn in H; [|discriminate].
    inversion H. cbn. f_equal. apply IH. reflexivity.
Qed.

Lemma map_result_Forall2 {A B} (f : A -> result B) l l' :
  EJSON.map_result f l = Ok l' -> Forall2 (fun a b => f a = Ok b) l l'.
Proof.
  revert l'. induction l as [|a r IH]; intros l' H; cbn in H.
  - inversion H. constructor.
  - destruct (f a) as [b|e] eqn:Ha; cbn in H; [|discriminate].
    destruct (EJSON.map_result f r) as [r'|e]; cbn in H; [|discriminate].
    inversion H. constructor; [exact Ha | apply IH; reflexivity].
Qed.

Lemma leafwise_same o : string_free o = true -> leafwise o o.
Proof.
  induction o as [ | | b | m e | s | l IH | c fs IH | n ] using value_ind';
    intros H; try (apply leafwise_scalar; reflexivity).
  - discriminate.
  - apply leafwise_array. cbn in H.
    induction IH as [|x r Hx _ IHr]; [constructor|].
    cbn in H. apply andb_true_iff in H as [H1 H2].
    constructor; [apply Hx, H1 | apply IHr, H2].
  - cbn in H. apply andb_true_iff in H as [_ H].
    apply leafwise_object; [left; reflexivity|].
    induction IH as [|[k x] r Hx _ IHr]; [constructor|].
    cbn in H. apply andb_true_iff in H as [H1 H2].
    constructor; [split; [reflexivity | apply Hx, H1] | apply IHr, H2].
Qed.

(** Whatever [coerce] returns is its argument but for the string
    leaves and the class of the objects, at every depth. *)
Lemma coerce_leafwise deserialize o :
  forall schema r, EJSON.coerce deserialize o schema = Ok r -> leafwise o r.
Proof.
  induction o as [ | | b | m e | s | l IH | c fs IH | n ] using value_ind';
    intros schema r H;
    try (destruct (truthy schema) eqn:Hs; cbn in H; rewrite Hs in H; inversion H;
         apply leafwise_scalar; reflexivity).
  - apply leafwise_string.
  - destruct (truthy schema) eqn:Hs.
    + rewrite (coerce_arr deserialize l schema Hs) in H.
      destruct (EJSON.map_result _ l) as [l'|e] eqn:E; cbn in H; [|discriminate].
      inversion H; subst r. apply leafwise_array.
      apply map_result_Forall2 in E. clear H.
      induction E as [|x y xs ys Hxy _ IHE]; [constructor|].
      inversion IH as [|? ? Hx Hr]; subst.
      constructor; [apply (Hx _ _ Hxy) | apply IHE, Hr].
    + rewrite (coerce_falsy deserialize _ _ Hs) in H. inversion H; subst r.
      apply leafwise_array. clear H.
      induction IH as [|x xs Hx _ IHr]; [constructor|].
      constructor; [|exact IHr].
      apply (Hx schema). apply coerce_falsy, Hs.
  - destruct (truthy schema) eqn:Hs.
    + rewrite (coerce_obj deserialize c fs schema Hs) in H.
      destruct (EJSON.map_result _ fs) as [fs'|e] eqn:E; cbn in H; [|discriminate].
      inversion H; subst r. apply leafwise_object; [right; reflexivity|].
      apply map_result_Forall2 in E. clear H.
      induction E as [|[k x] [k' y] xs ys Hxy _ IHE]; [constructor|].
      inversion IH as [|? ? Hx Hr]; subst.
      cbn in Hxy.
      destruct (EJSON.coerce deserialize x _) as [w|e] eqn:Ew; cbn in Hxy; [|discriminate].
      inversion Hxy; subst k' y.
      constructor; [split; [reflexivity | apply (Hx _ _ Ew)] | apply IHE, Hr].
    + rewrite (coerce_falsy deserialize _ _ Hs) in H. inversion H; subst r.
      apply leafwise_object; [left; reflexivity|]. clear H.
      induction IH as [|[k x] xs Hx _ IHr]; [constructor|].
      constructor; [|exact IHr].
      split; [reflexivity|]. apply (Hx schema). apply coerce_falsy, Hs.
Qed.

(** What [leafwise] refuses: a nested number or array replaced, an
    element dropped, a key renamed. *)
Lemma leafwise_refuses :
  ~ leafwise (Arr [Int 1]) (Arr [Null])
  /\ ~ leafwise (obj [("a", Arr [Str "1"])]) (obj [("a", Null)])
  /\ ~ leafwise (Arr [Int 1; Int 2]) (Arr [Int 1])
  /\ ~ leafwise (obj [("a", Int 1)]) (obj [("b", Int 1)]).
Proof.
  repeat split; intros H; inversion H; subst;
    repeat match goal with
           | F : Forall2 _ _ _ |- _ => inversion F; subst; clear F
           | F : _ /\ _ |- _ => destruct F
           | F : leafwise _ _ |- _ => inversion F; subst; clear F
           end; try discriminate.
Qed.

(** C5, as the code has it: [coerce] only ever changes string leaves and
    the class of objects, at every depth of the document: whatever it
    returns is its argument but for the strings, which may have become
    any value, and for the objects, which come back plain.  Under any
    schema an array comes back as an array of the same length and an
    object-like value as an object with the same keys in the same order;
    an element or a field whose schema node ([schema.items],
    [schema.properties[key]]) is absent or falsy comes back unchanged;
    [undefined], [null], booleans and numbers come back unchanged.  An
    instance of an extended type is object-like: under a truthy schema
    it comes back as a plain object of its own enumerable properties. *)
Theorem coerce_keeps_shape :
  forall deserialize schema,
    (forall l r, EJSON.coerce deserialize (Arr l) schema = Ok r ->
       exists l', r = Arr l' /\ List.length l' = List.length l)
    /\ (forall c fs r, EJSON.coerce deserialize (Obj c fs) schema = Ok r ->
          exists c' fs', r = Obj c' fs' /\ map fst fs' = map fst fs
                         /\ (truthy schema = true -> c' = CObject))
    /\ (forall l, truthy (and_prop schema "items") = false ->
          EJSON.coerce deserialize (Arr l) schema = Ok (Arr l))
    /\ (forall c fs c' fs' i k v,
          EJSON.coerce deserialize (Obj c fs) schema = Ok (Obj c' fs') ->
          nth_error fs i = Some (k, v) ->
          truthy (and_prop (and_prop schema "properties") k) = false ->
          nth_error fs' i = Some (k, v))
    /\ (forall o, is_scalar o = true -> EJSON.coerce deserialize o schema = Ok o)
    /\ (forall o r, EJSON.coerce deserialize o schema = Ok r -> leafwise o r).
Proof.
  intros deserialize schema.
  assert (Hdeep : forall o r, EJSON.coerce deserialize o schema = Ok r -> leafwise o r).
  { intros o r. apply coerce_leafwise. }
  destruct (truthy schema) eqn:Hs.
  - repeat split.
    + intros l r H. rewrite (coerce_arr _ _ _ Hs) in H.
      destruct (EJSON.map_result _ l) as [l'|e] eqn:E; cbn in H; [|discriminate].
      inversion H. exists l'. split; [reflexivity|].
      apply (map_result_length _ _ _ E).
    + intros c fs r H. rewrite (coerce_obj _ _ _ _ Hs) in H.
      destruct (EJSON.map_result _ fs) as [fs'|e] eqn:E; cbn in H; [|discriminate].
      inversion H. exists CObject, fs'. repeat split.
      apply (coerce_fields_keys _ _ _ _ E).
    + intros l Hi. rewrite (coerce_arr _ _ _ Hs).
      rewrite map_result_same; [reflexivity|].
      intros a _. apply coerce_falsy. exact Hi.
    + intros c fs c' fs' i k v H Hi Hk. rewrite (coerce_obj _ _ _ _ Hs) in H.
      destruct (EJSON.map_result _ fs) as [fs2|e] eqn:E; cbn in H; [|discriminate].
      inversion H; subst c' fs'.
      destruct (map_result_nth _ _ _ _ _ E Hi) as [[k' v'] [Hf Hn]].
      cbn in Hf. rewrite (coerce_falsy _ _ _ Hk) in Hf. cbn in Hf.
      inversion Hf; subst. exact Hn.
    + intros o Ho. destruct o; try discriminate; cbn; rewrite Hs; reflexivity.
    + exact Hdeep.
  - repeat split.
    + intros l r H. rewrite (coerce_falsy _ _ _ Hs) in H. inversion H.
      exists l. split; reflexivity.
    + intros c fs r H. rewrite (coerce_falsy _ _ _ Hs) in H. inversion H.
      exists c, fs. repeat split. discriminate.
    + intros l _. apply coerce_falsy. exact Hs.
    + intros c fs c' fs' i k v H Hi _. rewrite (coerce_falsy _ _ _ Hs) in H.
      inversion H; subst. exact Hi.
    + intros o _. apply coerce_falsy. exact Hs.
    + exact Hdeep.
Qed.

Lemma coerce_keeps_shape_witness :
  EJSON.coerce tagging_codec (obj [("a", Str "42"); ("b", Str "7")])
    (obj [("type", Str "object"); ("properties", obj [("a", EJSON.typed "number")])])
  = Ok (obj [("a", Int 42); ("b", Str "7")])
  /\ nth_error [("a", Int 42); ("b", Str "7")] 1 = Some ("b", Str "7").
Proof.
  split.
  - reflexivity.
  - apply (proj1 (proj2 (proj2 (proj2
             (coerce_keeps_shape tagging_codec
                (obj [("type", Str "object");
                      ("properties", obj [("a", EJSON.typed "number")])])))))
             CObject [("a", Str "42"); ("b", Str "7")] CObject
             [("a", Int 42); ("b", Str "7")] 1%nat "b" (Str "7"));
      reflexivity.
Defined.

(** C5 as stated fails on typed instances: a [Date] coerced against
    [{type: "Date"}] comes back as the empty plain object, and an
    [ObjectID] as a plain object that is no [ObjectID] any more. *)
Lemma coerce_rebuilds_instances :
  EJSON.coerce tagging_codec (Types.new_Date 0) (EJSON.typed "Date") = Ok (obj [])
  /\ Ok (obj []) <> Ok (Types.new_Date 0)
  /\ EJSON.coerce tagging_codec (Types.new_ObjectId "507f1f77bcf86cd799439011")
       (EJSON.typed "ObjectId")
     <> Ok (Types.new_ObjectId "507f1f77bcf86cd799439011").
Proof.
  split; [reflexivity | split; discriminate].
Qed.

(** ** [toJSONSchema] *)

Lemma toJSONSchema_arr l :
  EJSON.toJSONSchema (Arr l) = (l' <- EJSON.map_result EJSON.toJSONSchema l ;; Ok (Arr l')).
Proof. reflexivity. Qed.

Lemma toJSONSchema_obj c fs :
  EJSON.toJSONSchema (Obj c fs)
  = let ty := prop (Obj c fs) "type" in
    schemaReplacement <- (if truthy ty then EJSON.catalog_entry ty else Ok Undefined) ;;
    if truthy ty && truthy schemaReplacement
    then Ok schemaReplacement
    else EJSON.mapValues EJSON.toJSONSchema fs.
Proof. reflexivity. Qed.

Lemma primitive_not_in_catalog t :
  Engine.known_type t = true -> prop EJSON.ejsonSchemas t = Undefined.
Proof.
  unfold Engine.known_type. intros H.
  apply existsb_exists in H as [x [Hin Heq]].
  apply String.eqb_eq in Heq. subst x.
  cbn in Hin. decompose [or] Hin; subst; try contradiction; reflexivity.
Qed.

Lemma keys_of_primitive_types ts :
  forallb primitive_type ts = true ->
  exists ks,
    EJSON.map_result (fun x => if nullish x then Ok (Some EmptyString) else EJSON.key_of x) ts
    = Ok ks
    /\ List.length ks = List.length ts.
Proof.
  induction ts as [|t r IH]; cbn; intros H.
  - exists []. split; reflexivity.
  - apply andb_true_iff in H as [Ht Hr].
    destruct t; try discriminate. cbn.
    destruct (IH Hr) as [ks [E L]]. rewrite E. cbn.
    eexists. split; [reflexivity | cbn; rewrite L; reflexivity].
Qed.

Lemma primitive_list_misses ts :
  forallb primitive_type ts = true ->
  exists r, EJSON.catalog_entry (Arr ts) = Ok r /\ truthy r = false.
Proof.
  intros H. unfold EJSON.catalog_entry.
  destruct ts as [|a [|b r]].
  - eexists. split; reflexivity.
  - cbn in H. rewrite andb_true_r in H. destruct a as [| | | | t | | |]; try discriminate.
    cbn in H. change (EJSON.key_of (Arr [Str t])) with (Ok (Some t)). cbn [bind].
    rewrite (primitive_not_in_catalog _ H). eexists. split; reflexivity.
  - cbn [EJSON.key_of].
    destruct (keys_of_primitive_types _ H) as [ks [E L]]. rewrite E. cbn [bind].
    destruct ks as [|k1 [|k2 ks]]; try discriminate.
    eexists. split; reflexivity.
Qed.

(** A structural [type] converts to a key without error and finds
    nothing in the catalog. *)
Lemma structural_type_misses c fs :
  structural_type (assoc "type" fs) = true ->
  exists r,
    (if truthy (prop (Obj c fs) "type")
     then EJSON.catalog_entry (prop (Obj c fs) "type")
     else Ok Undefined) = Ok r
    /\ truthy (prop (Obj c fs) "type") && truthy r = false.
Proof.
  unfold prop. destruct (assoc "type" fs) as [ty|].
  - destruct ty as [| | | | t | ts | tc tfs |]; cbn [structural_type]; try discriminate.
    + intros H. unfold EJSON.catalog_entry. cbn [EJSON.key_of bind].
      rewrite (primitive_not_in_catalog t H).
      destruct (truthy (Str t)); eexists; split; reflexivity.
    + intros H. destruct (primitive_list_misses ts H) as [r [E Hr]].
      cbn [truthy]. rewrite E. exists r. split; [reflexivity | exact Hr].
    + intros H. apply andb_true_iff in H as [_ H].
      cbn [truthy]. unfold EJSON.catalog_entry. cbn [EJSON.key_of].
      destruct (assoc "toString" tfs); [discriminate|].
      eexists. split; reflexivity.
  - intros _. eexists. split; reflexivity.
Qed.

Lemma toJSONSchema_kept c fs r :
  (if truthy (prop (Obj c fs) "type")
   then EJSON.catalog_entry (prop (Obj c fs) "type")
   else Ok Undefined) = Ok r ->
  truthy (prop (Obj c fs) "type") && truthy r = false ->
  EJSON.toJSONSchema (Obj c fs) = EJSON.mapValues EJSON.toJSONSchema fs.
Proof.
  intros E H. rewrite toJSONSchema_obj. cbv zeta. rewrite E. cbn [bind]. rewrite H.
  reflexivity.
Qed.

Lemma mapValues_keys f fs r :
  EJSON.mapValues f fs = Ok r ->
  exists fs', r = obj fs' /\ map fst fs' = map fst fs
              /\ Forall2 (fun kv kv' => f (snd kv) = Ok (snd kv')) fs fs'.
Proof.
  unfold EJSON.mapValues.
  destruct (EJSON.map_result _ fs) as [fs'|e] eqn:E; cbn; [|discriminate].
  intros H. injection H as <-. exists fs'. split; [reflexivity|].
  apply map_result_Forall2 in E.
  induction E as [|[k v] [k' v'] xs ys Hxy _ [IH1 IH2]]; [split; constructor|].
  destruct (f v) as [w|e] eqn:Ew; cbn in Hxy; [|discriminate].
  inversion Hxy; subst. cbn. split; [f_equal; exact IH1|].
  constructor; [exact Ew | exact IH2].
Qed.

Lemma toJSONSchema_catalog_name c fs name fragment :
  assoc "type" fs = Some (Str name) ->
  assoc name catalog_fields = Some fragment ->
  EJSON.toJSONSchema (Obj c fs) = Ok fragment.
Proof.
  intros Hty Hname. rewrite toJSONSchema_obj. cbv zeta.
  unfold prop at 1 2 3. rewrite Hty.
  unfold EJSON.catalog_entry. cbn [EJSON.key_of bind].
  assert (E : prop EJSON.ejsonSchemas name = fragment).
  { unfold prop, EJSON.ejsonSchemas, obj.
    change (assoc name catalog_fields) with
      (assoc name (match EJSON.ejsonSchemas with Obj _ fs => fs | _ => [] end)) in Hname.
    unfold EJSON.ejsonSchemas, obj in Hname. rewrite Hname. reflexivity. }
  rewrite E.
  assert (Hf : truthy fragment = true).
  { cbn in Hname.
    repeat (destruct (name =? _)%string;
            [inversion Hname; reflexivity|]).
    discriminate. }
  assert (Hn : truthy (Str name) = true).
  { cbn. destruct name; [discriminate Hname | reflexivity]. }
  rewrite Hn. cbn [bind]. rewrite Hf. reflexivity.
Qed.

Lemma toJSONSchema_primitive v :
  isObjectLike v = false -> EJSON.toJSONSchema v = Ok v.
Proof. destruct v; cbn; intros H; try discriminate; reflexivity. Qed.

Lemma toJSONSchema_structural v : structural v = true -> EJSON.toJSONSchema v = Ok v.
Proof.
  induction v as [ | | b | m e | s | l IH | c fs IH | n ] using value_ind';
    intros H; try reflexivity.
  - rewrite toJSONSchema_arr. rewrite map_result_same; [reflexivity|].
    intros x Hx. apply (proj1 (Forall_forall _ _) IH x Hx).
    cbn in H. apply (proj1 (forallb_forall _ _) H x Hx).
  - cbn [structural] in H.
    apply andb_true_iff in H as [H H3]. apply andb_true_iff in H as [H1 H2].
    destruct c; try discriminate.
    destruct (structural_type_misses CObject fs H2) as [r [E Hr]].
    rewrite (toJSONSchema_kept _ _ _ E Hr). unfold EJSON.mapValues.
    rewrite map_result_same; [reflexivity|].
    intros [k x] Hx.
    pose proof (proj1 (Forall_forall _ _) IH (k, x) Hx) as Hk. cbn in Hk.
    rewrite Hk; [reflexivity|].
    apply (proj1 (forallb_forall _ _) H3 (k, x) Hx).
Qed.

(** C3 at the names [ejsonSchemas] inherits: ["constructor"] is the name
    of no catalog entry, yet a node of that type is not kept and
    rewritten field by field; the member of [Object.prototype] found
    under that name is returned in its place. *)
Theorem toJSONSchema_inherited_name :
  assoc "constructor" catalog_fields = None
  /\ EJSON.toJSONSchema
       (obj [("type", Str "constructor"); ("properties", obj [("a", EJSON.typed "Date")])])
     = Ok (Builtin "constructor")
  /\ EJSON.toJSONSchema (EJSON.typed "toString") = Ok (Builtin "toString").
Proof. repeat split. Qed.

(** C8 where the lookup converts a [type] that is no string: the schema
    [{properties: {type: {toString: {type: "string"}}}}] is built of
    plain objects and a primitive type name only, and [toJSONSchema]
    raises a [TypeError] on it instead of returning an equal schema: the
    node under [properties] has a property called [type], whose value,
    an object with a [toString] of its own, is converted to a key for
    the catalog.  A schema with [{type: "constructor"}] holds no
    reference to an extended type either and is not returned as it
    is. *)
Theorem toJSONSchema_raises_on_structural_schema :
  raises_TypeError
    (EJSON.toJSONSchema (obj [("properties", obj [("type", obj [("toString", EJSON.typed "string")])])]))
  = true
  /\ EJSON.toJSONSchema (obj [("type", obj [("toString", EJSON.typed "string")])])
     = Throw (TypeError "Cannot convert object to primitive value")
  /\ EJSON.toJSONSchema (EJSON.typed "constructor") <> Ok (EJSON.typed "constructor").
Proof. repeat split. discriminate. Qed.

(** ** The type predicates *)

Lemma predicates_on_defined_instances :
  forallb (fun '(T, isT) => answers_exactly (removelast fresh_instances) T isT) predicates
  = true.
Proof. vm_compute. reflexivity. Qed.

Lemma predicates_on_plain_objects :
  forallb (fun '(_, isT) => answers_false isT (obj [])
                            && answers_false isT (obj [("$oid", Str "507f1f77bcf86cd799439011")]))
    predicates
  = true.
Proof. vm_compute. reflexivity. Qed.

Lemma predicates_total_off_null isT v :
  In isT (map snd predicates) -> nullish v = false -> exists b, isT v = Ok b.
Proof.
  intros Hin Hv. cbn in Hin.
  decompose [or] Hin; subst; try contradiction;
    unfold EJSON.isDate, EJSON.isDBRef, EJSON.isMaxKey, EJSON.isMinKey, EJSON.isLong,
      EJSON.isObjectId, EJSON.isRegex, EJSON.isTimestamp, EJSON.isUndefined,
      EJSON.bsontype_is, get_prop;
    try rewrite Hv; cbn; eexists; reflexivity.
Qed.

(** C4 at [null] and [undefined]: each of the six predicates that read
    [_bsontype] raises a [TypeError] there instead of answering false,
    and so none of them answers on the instance of [Undefined]; [isDate],
    [isRegex] and [isUndefined] answer on every value. *)
Theorem tag_predicates_raise_on_null :
  forallb (fun '(_, isT) => raises_TypeError (isT Null) && raises_TypeError (isT Undefined))
    tag_predicates = true
  /\ forallb (fun '(T, isT) => negb (answers_exactly fresh_instances T isT))
       tag_predicates = true
  /\ (forall v, exists b c d,
        EJSON.isDate v = Ok b /\ EJSON.isRegex v = Ok c /\ EJSON.isUndefined v = Ok d)
  /\ EJSON.isDate Null = Ok false
  /\ EJSON.isRegex Null = Ok false
  /\ EJSON.isUndefined Null = Ok false.
Proof.
  repeat split.
  intros v. do 3 eexists. repeat split.
Qed.

(** ** The catalog *)

(** C6: [ejsonSchemas] is the table, row by row: every fragment is an
    object schema that requires its one tag key, constrains the tag's
    value and the optional keys as the row says, and sets
    [additionalProperties] to false.  On the model engine the fragments
    of [MaxKey] and [MinKey] accept the number 1 and no other number, the
    string-tagged fragments refuse a number, [DBRef] accepts any [$id],
    and no fragment accepts a key outside its row. *)
Theorem catalog_is_the_table :
  EJSON.ejsonSchemas = spec_catalog
  /\ Forall (fun '(_, fragment) => prop fragment "additionalProperties" = Bool false)
       catalog_fields
  /\ (tagged_issues "MaxKey" "$maxKey" (Int 1) = []
      /\ tagged_issues "MaxKey" "$maxKey" (Int 2) <> []
      /\ tagged_issues "MaxKey" "$maxKey" (Int 0) <> []
      /\ tagged_issues "MinKey" "$minKey" (Int 1) = []
      /\ tagged_issues "MinKey" "$minKey" (Num 15 (-1)) <> [])
  /\ (tagged_issues "Date" "$date" (Str "2016-01-01") = []
      /\ tagged_issues "Date" "$date" (Int 0) <> []
      /\ tagged_issues "Long" "$numberLong" (Int 5) <> []
      /\ tagged_issues "ObjectId" "$oid" (Int 123) <> [])
  /\ (Engine.check EJSON.DBRef (obj [("$ref", Str "users"); ("$id", Int 7)]) = []
      /\ Engine.check EJSON.DBRef (obj [("$ref", Str "users"); ("$id", obj [])]) = []
      /\ Engine.check EJSON.Regex (obj [("$regex", Str "a+"); ("$options", Int 1)]) <> []
      /\ Engine.check EJSON.Regex (obj [("$regex", Str "a+"); ("$options", Str "g")]) = [])
  /\ (tagged_issues "Timestamp" "$timestamp" (obj [("t", Int 1); ("i", Int 2)]) = []
      /\ tagged_issues "Timestamp" "$timestamp" (obj [("t", Int 1); ("x", Int 2)]) <> []
      /\ tagged_issues "Timestamp" "$timestamp" (obj [("t", Str "1"); ("i", Int 2)]) <> [])
  /\ Forall (fun '(_, fragment) => Engine.check fragment (obj []) <> []
                                   /\ Engine.well_formed fragment = true)
       catalog_fields.
Proof.
  split; [reflexivity|].
  split; [repeat constructor|].
  split; [repeat split; discriminate|].
  split; [repeat split; discriminate|].
  split; [repeat split; discriminate|].
  split; [repeat split; discriminate|].
  repeat constructor; discriminate.
Qed.

(** ** [validate] *)

Section ValidateFacts.
Variable stringify : value -> string.
Variable ZSchema : Type.
Variable new_ZSchema : ZSchema.
Variable validateSchema : ZSchema -> value -> result (bool * ZSchema).
Variable engine_validate : ZSchema -> value -> value -> result (bool * ZSchema).
Variable getLastErrors : ZSchema -> value.

Local Abbreviation validate :=
  (EJSON.validate stringify ZSchema new_ZSchema validateSchema engine_validate getLastErrors).
Local Abbreviation wrapped := (EJSON.wrapped stringify).

Variables o schema concrete : value.

(** The rewriter runs before the [try] block: what it raises leaves
    [validate] as it is. *)
Lemma validate_rewriter_raises e :
  EJSON.toJSONSchema schema = Throw e -> validate o schema = Throw e.
Proof. intros H. unfold EJSON.validate. rewrite H. reflexivity. Qed.

Hypothesis rewritten : EJSON.toJSONSchema schema = Ok concrete.

Lemma validate_invalid_schema z :
  validateSchema new_ZSchema concrete = Ok (false, z) ->
  validate o schema = Throw (wrapped concrete o "Invalid schema.").
Proof. intros H. unfold EJSON.validate. rewrite rewritten. cbn. rewrite H. reflexivity. Qed.

Lemma validate_compile_raises e :
  validateSchema new_ZSchema concrete = Throw e ->
  validate o schema = Throw (wrapped concrete o (message e)).
Proof. intros H. unfold EJSON.validate. rewrite rewritten. cbn. rewrite H. reflexivity. Qed.

Lemma validate_run_raises z e :
  validateSchema new_ZSchema concrete = Ok (true, z) ->
  engine_validate z o concrete = Throw e ->
  validate o schema = Throw (wrapped concrete o (message e)).
Proof.
  intros H1 H2. unfold EJSON.validate. rewrite rewritten. cbn. rewrite H1. cbn. rewrite H2.
  reflexivity.
Qed.

Lemma validate_passes z z' :
  validateSchema new_ZSchema concrete = Ok (true, z) ->
  engine_validate z o concrete = Ok (true, z') ->
  validate o schema = Ok (obj [("valid", Bool true)]).
Proof.
  intros H1 H2. unfold EJSON.validate. rewrite rewritten. cbn. rewrite H1. cbn. rewrite H2.
  reflexivity.
Qed.

Lemma validate_fails z z' :
  validateSchema new_ZSchema concrete = Ok (true, z) ->
  engine_validate z o concrete = Ok (false, z') ->
  validate o schema
  = (first <- get_prop (getLastErrors z') "0" ;;
     m <- get_prop first "message" ;;
     Ok (obj [("valid", Bool false); ("error", m)])).
Proof.
  intros H1 H2. unfold EJSON.validate. rewrite rewritten. cbn. rewrite H1. cbn. rewrite H2.
  reflexivity.
Qed.

Lemma first_of_list issue rest : get_prop (Arr (issue :: rest)) "0" = Ok issue.
Proof. reflexivity. Qed.

Lemma validate_returns r :
  validate o schema = Ok r ->
  r = obj [("valid", Bool true)]
  \/ exists m, r = obj [("valid", Bool false); ("error", m)].
Proof.
  unfold EJSON.validate. rewrite rewritten. cbn.
  destruct (validateSchema new_ZSchema concrete) as [[[] z]|e]; cbn; try discriminate.
  destruct (engine_validate z o concrete) as [[[] z']|e]; cbn; try discriminate.
  - intros H. inversion H. left. reflexivity.
  - destruct (get_prop (getLastErrors z') "0") as [first|e]; cbn; try discriminate.
    destruct (get_prop first "message") as [m|e]; cbn; try discriminate.
    intros H. inversion H. right. exists m. reflexivity.
Qed.

End ValidateFacts.

(** C1: the two channels of [validate], on the schema the rewriter
    returns.  A document the engine rejects, with a first reported issue,
    makes the call return [{valid: false, error: m}] with [m] the message
    of that issue alone; a document it accepts makes it return
    [{valid: true}]; whatever is returned has an [error] field exactly
    when [valid] is false.  A rewritten schema the engine finds invalid,
    or an exception of the engine while it compiles or validates, makes
    the call raise one error whose message holds the serialized rewritten
    schema, the serialized document and the reason. *)
Theorem validate_channels :
  forall stringify (ZSchema : Type) (new_ZSchema : ZSchema)
         validateSchema engine_validate getLastErrors o schema concrete,
    EJSON.toJSONSchema schema = Ok concrete ->
    let validate :=
      EJSON.validate stringify ZSchema new_ZSchema validateSchema engine_validate
        getLastErrors in
    (forall z z' issue rest m,
        validateSchema new_ZSchema concrete = Ok (true, z) ->
        engine_validate z o concrete = Ok (false, z') ->
        getLastErrors z' = Arr (issue :: rest) ->
        get_prop issue "message" = Ok m ->
        validate o schema = Ok (obj [("valid", Bool false); ("error", m)]))
    /\ (forall z z',
          validateSchema new_ZSchema concrete = Ok (true, z) ->
          engine_validate z o concrete = Ok (true, z') ->
          validate o schema = Ok (obj [("valid", Bool true)]))
    /\ (forall r, validate o schema = Ok r ->
          r = obj [("valid", Bool true)]
          \/ exists m, r = obj [("valid", Bool false); ("error", m)])
    /\ (forall z,
          validateSchema new_ZSchema concrete = Ok (false, z) ->
          validate o schema
          = Throw (EJSON.wrapped stringify concrete o "Invalid schema."))
    /\ (forall e,
          validateSchema new_ZSchema concrete = Throw e ->
          validate o schema = Throw (EJSON.wrapped stringify concrete o (message e)))
    /\ (forall z e,
          validateSchema new_ZSchema concrete = Ok (true, z) ->
          engine_validate z o concrete = Throw e ->
          validate o schema = Throw (EJSON.wrapped stringify concrete o (message e)))
    /\ (forall reason,
          EJSON.wrapped stringify concrete o reason
          = Error ("Exception in compiling schema or validating ejson schema: "
                   ++ stringify concrete ++ " data: " ++ stringify o
                   ++ " -- Reason: " ++ reason)).
Proof.
  intros stringify ZSchema new_ZSchema validateSchema engine_validate getLastErrors
    o schema concrete Hrw validate.
  repeat split.
  - intros z z' issue rest m H1 H2 H3 H4. unfold validate.
    rewrite (validate_fails _ _ _ _ _ _ _ _ _ Hrw z z' H1 H2), H3, first_of_list.
    cbn. rewrite H4. reflexivity.
  - intros z z'. apply (validate_passes _ _ _ _ _ _ _ _ _ Hrw).
  - apply (validate_returns _ _ _ _ _ _ _ _ _ Hrw).
  - intros z. apply (validate_invalid_schema _ _ _ _ _ _ _ _ _ Hrw).
  - intros e. apply (validate_compile_raises _ _ _ _ _ _ _ _ _ Hrw).
  - intros z e. apply (validate_run_raises _ _ _ _ _ _ _ _ _ Hrw).
Qed.

Lemma validate_channels_witness :
  validate_model (obj [("$oid", Int 123)]) (EJSON.typed "ObjectId")
  = Ok (obj [("valid", Bool false);
             ("error", Str "Expected type string but found type integer")]).
Proof.
  apply (proj1 (validate_channels kind_stringify Engine.ZSchema Engine.new_ZSchema
                  Engine.validateSchema Engine.validate Engine.getLastErrors
                  (obj [("$oid", Int 123)]) (EJSON.typed "ObjectId") EJSON.ObjectId
                  eq_refl)
           [] ["Expected type string but found type integer"]
           (obj [("message", Str "Expected type string but found type integer")]) []
           (Str "Expected type string but found type integer"));
    reflexivity.
Defined.

(** The model engine keeps its side of the contract: a rejection comes
    with a first issue that has a string message. *)
Lemma model_engine_reports z doc schema z' :
  Engine.validate z doc schema = Ok (false, z') ->
  exists m rest,
    Engine.getLastErrors z' = Arr (obj [("message", Str m)] :: rest).
Proof.
  unfold Engine.validate. destruct (Engine.check schema doc) as [|m r]; [discriminate|].
  intros H. inversion H. exists m. eexists. reflexivity.
Qed.

(** C9, as the code has it: the message of the first issue is read
    after the [try] block, and the schema is rewritten before it.  When
    the rewriter returns, and the engine, on rejecting the document,
    reports a first issue with a string message, [validate] returns
    [{valid: true}], returns [{valid: false, error: m}] with [m] a
    string, or raises the one wrapped error, whose message holds the
    serialized rewritten schema, the serialized document and a reason.
    When the engine rejects the document and reports no issue (an empty
    list, or none), the read raises a [TypeError] that leaves [validate]
    as it is, not wrapped.  What the rewriter raises leaves [validate]
    as it is too. *)
Theorem validate_outcomes :
  forall stringify (ZSchema : Type) (new_ZSchema : ZSchema)
         validateSchema engine_validate getLastErrors o schema,
    let validate :=
      EJSON.validate stringify ZSchema new_ZSchema validateSchema engine_validate
        getLastErrors in
    (forall concrete,
        EJSON.toJSONSchema schema = Ok concrete ->
        (forall z z',
            validateSchema new_ZSchema concrete = Ok (true, z) ->
            engine_validate z o concrete = Ok (false, z') ->
            exists issue rest m,
              getLastErrors z' = Arr (issue :: rest)
              /\ get_prop issue "message" = Ok (Str m)) ->
        validate o schema = Ok (obj [("valid", Bool true)])
        \/ (exists m, validate o schema = Ok (obj [("valid", Bool false); ("error", Str m)]))
        \/ (exists reason,
              validate o schema
              = Throw (Error ("Exception in compiling schema or validating ejson schema: "
                              ++ stringify concrete ++ " data: " ++ stringify o
                              ++ " -- Reason: " ++ reason))))
    /\ (forall concrete z z',
          EJSON.toJSONSchema schema = Ok concrete ->
          validateSchema new_ZSchema concrete = Ok (true, z) ->
          engine_validate z o concrete = Ok (false, z') ->
          getLastErrors z' = Arr [] \/ nullish (getLastErrors z') = true ->
          exists msg,
            validate o schema = Throw (TypeError msg)
            /\ forall text, TypeError msg <> Error text)
    /\ (forall e, EJSON.toJSONSchema schema = Throw e -> validate o schema = Throw e).
Proof.
  intros stringify ZSchema new_ZSchema validateSchema engine_validate getLastErrors
    o schema validate.
  split; [|split].
  - intros concrete Hrw Hcontract.
    destruct (validateSchema new_ZSchema concrete) as [[[] z]|e] eqn:H1.
    + destruct (engine_validate z o concrete) as [[[] z']|e] eqn:H2.
      * left. apply (validate_passes _ _ _ _ _ _ _ _ _ Hrw z z' H1 H2).
      * right. left.
        destruct (Hcontract z z' eq_refl H2) as [issue [rest [m [H3 H4]]]].
        exists m. unfold validate.
        rewrite (validate_fails _ _ _ _ _ _ _ _ _ Hrw z z' H1 H2), H3, first_of_list.
        cbn. rewrite H4. reflexivity.
      * right. right. exists (message e).
        apply (validate_run_raises _ _ _ _ _ _ _ _ _ Hrw z e H1 H2).
    + right. right. exists "Invalid schema.".
      apply (validate_invalid_schema _ _ _ _ _ _ _ _ _ Hrw z H1).
    + right. right. exists (message e).
      apply (validate_compile_raises _ _ _ _ _ _ _ _ _ Hrw e H1).
  - intros concrete z z' Hrw H1 H2 H3. unfold validate.
    rewrite (validate_fails _ _ _ _ _ _ _ _ _ Hrw z z' H1 H2).
    destruct H3 as [H3 | H3].
    + rewrite H3. cbn. eexists. split; [reflexivity | discriminate].
    + unfold get_prop at 1. rewrite H3. cbn. eexists. split; [reflexivity | discriminate].
  - intros e. apply validate_rewriter_raises.
Qed.

Lemma validate_outcomes_witness :
  (validate_model (obj [("$oid", Int 123)]) (EJSON.typed "ObjectId")
   = Ok (obj [("valid", Bool true)])
   \/ (exists m, validate_model (obj [("$oid", Int 123)]) (EJSON.typed "ObjectId")
                 = Ok (obj [("valid", Bool false); ("error", Str m)]))
   \/ (exists reason,
         validate_model (obj [("$oid", Int 123)]) (EJSON.typed "ObjectId")
         = Throw (Error ("Exception in compiling schema or validating ejson schema: "
                         ++ kind_stringify EJSON.ObjectId
                         ++ " data: " ++ kind_stringify (obj [("$oid", Int 123)])
                         ++ " -- Reason: " ++ reason))))
  /\ exists msg, validate_silent (Int 1) (EJSON.typed "string") = Throw (TypeError msg).
Proof.
  split.
  - apply (proj1 (validate_outcomes kind_stringify Engine.ZSchema Engine.new_ZSchema
                    Engine.validateSchema Engine.validate Engine.getLastErrors
                    (obj [("$oid", Int 123)]) (EJSON.typed "ObjectId"))
             EJSON.ObjectId eq_refl).
    intros z z' _ H. vm_compute in H. inversion H.
    do 3 eexists. split; reflexivity.
  - destruct (proj1 (proj2 (validate_outcomes kind_stringify Engine.ZSchema
                              Engine.new_ZSchema Engine.validateSchema
                              Engine.silent_validate Engine.getLastErrors
                              (Int 1) (EJSON.typed "string")))
                (EJSON.typed "string") [] [] eq_refl eq_refl eq_refl (or_intror eq_refl))
      as [msg [H _]].
    exists msg. exact H.
Defined.

(** C9 as stated fails on a schema the rewriter raises on: with the
    model engine, which reports an issue whenever it rejects a document,
    [validate(1, {type: {toString: 1}})] raises a [TypeError], which is
    none of the three outcomes. *)
Lemma validate_rewriter_error_escapes :
  validate_model (Int 1) (obj [("type", obj [("toString", Int 1)])])
  = Throw (TypeError "Cannot convert object to primitive value")
  /\ (forall r, validate_model (Int 1) (obj [("type", obj [("toString", Int 1)])]) <> Ok r)
  /\ (forall text,
        validate_model (Int 1) (obj [("type", obj [("toString", Int 1)])])
        <> Throw (Error text)).
Proof. repeat split; discriminate. Qed.

(** C10: the [Timestamp] fragment gives the object under [$timestamp]
    number-typed [t] and [i] and no other key, and no [required] list; on
    the model engine [validate({$timestamp: {}}, {type: "Timestamp"})]
    is [{valid: true}]. *)
Theorem timestamp_accepts_empty_object :
  let inner := prop (prop EJSON.Timestamp "properties") "$timestamp" in
  prop inner "type" = Str "object"
  /\ prop inner "properties" = obj [("t", EJSON.typed "number"); ("i", EJSON.typed "number")]
  /\ prop inner "additionalProperties" = Bool false
  /\ prop inner "required" = Undefined
  /\ prop EJSON.Timestamp "required" = Arr [Str "$timestamp"]
  /\ validate_model (obj [("$timestamp", obj [])]) (EJSON.typed "Timestamp")
     = Ok (obj [("valid", Bool true)])
  /\ validate_model (obj [("$timestamp", obj [("t", Int 1)])]) (EJSON.typed "Timestamp")
     = Ok (obj [("valid", Bool true)])
  /\ (exists m, validate_model (obj [("$timestamp", obj [("x", Int 1)])])
                  (EJSON.typed "Timestamp")
                = Ok (obj [("valid", Bool false); ("error", Str m)])).
Proof.
  cbv zeta. repeat split. eexists. reflexivity.
Qed.

(** ** The examples of the specification *)

Example parse_integer : JSON.parse "42" = Ok (Int 42).
Proof. reflexivity. Qed.

Example parse_decimal : JSON.parse " -1.50e1 " = Ok (Int (-15)) /\ JSON.parse "0.25" = Ok (Num 25 (-2)).
Proof. split; reflexivity. Qed.

Example parse_nested : JSON.parse "[1, [true, null], {}]" = Ok (Arr [Int 1; Arr [Bool true; Null]; obj []]).
Proof. reflexivity. Qed.

Example parse_refuses :
  raises_TypeError (JSON.parse "abc") = false
  /\ JSON.parse "abc" = Throw (SyntaxError "Unexpected token in JSON")
  /\ JSON.parse "01" = Throw (SyntaxError "Unexpected token in JSON")
  /\ JSON.parse "[1,]" = Throw (SyntaxError "Unexpected token in JSON").
Proof. repeat split. Qed.

Example coerce_number_field :
  EJSON.coerce tagging_codec (obj [("a", Str "42")])
    (obj [("type", Str "object"); ("properties", obj [("a", EJSON.typed "number")])])
  = Ok (obj [("a", Int 42)]).
Proof. reflexivity. Qed.

Example coerce_number_items :
  EJSON.coerce tagging_codec (Arr [Str "1"; Str "2"])
    (obj [("type", Str "array"); ("items", EJSON.typed "number")])
  = Ok (Arr [Int 1; Int 2]).
Proof. reflexivity. Qed.

Example coerce_object_id deserialize :
  EJSON.coerce deserialize (Str "507f1f77bcf86cd799439011") (EJSON.typed "ObjectId")
  = deserialize (obj [("$oid", Str "507f1f77bcf86cd799439011")]).
Proof. reflexivity. Qed.

Example coerce_propagates_parse_error :
  EJSON.coerce tagging_codec (obj [("a", Str "4x2"); ("b", Str "1")])
    (obj [("properties", obj [("a", EJSON.typed "number"); ("b", EJSON.typed "number")])])
  = Throw (SyntaxError "Unexpected token in JSON").
Proof. reflexivity. Qed.

Example rewrite_each_catalog_name :
  Forall (fun '(name, fragment) => EJSON.toJSONSchema (EJSON.typed name) = Ok fragment)
    catalog_fields.
Proof. repeat constructor. Qed.

Example rewrite_nested_reference :
  EJSON.toJSONSchema
    (obj [("type", Str "object");
          ("properties", obj [("_id", obj [("type", Str "ObjectId"); ("description", Str "key")])])])
  = Ok (obj [("type", Str "object"); ("properties", obj [("_id", EJSON.ObjectId)])]).
Proof. reflexivity. Qed.

Example validate_object_id :
  validate_model (obj [("$oid", Str "507f1f77bcf86cd799439011")]) (EJSON.typed "ObjectId")
  = Ok (obj [("valid", Bool true)]).
Proof. reflexivity. Qed.

Example validate_max_key :
  validate_model (obj [("$maxKey", Int 2)]) (EJSON.typed "MaxKey")
  = Ok (obj [("valid", Bool false); ("error", Str "Value is greater than maximum")]).
Proof. reflexivity. Qed.

Example validate_invalid_schema_wrapped :
  validate_model (Int 1) (EJSON.typed "Foo")
  = Throw (Error "Exception in compiling schema or validating ejson schema: <object> data: <integer> -- Reason: Invalid schema.").
Proof. reflexivity. Qed.

Example validate_engine_crash_wrapped :
  validate_crashing (Int 1) (EJSON.typed "string")
  = Throw (Error "Exception in compiling schema or validating ejson schema: <object> data: <integer> -- Reason: Maximum call stack size exceeded").
Proof. reflexivity. Qed.

(** * Further properties *)

(** ** [toJSONSchema] on shorthand schemas *)

Lemma assoc_In k fs v : assoc k fs = Some v -> In (k, v) fs.
Proof.
  induction fs as [|[k' v'] r IH]; cbn; [discriminate|].
  destruct (k =? k')%string eqn:E.
  - intros H. inversion H; subst. apply String.eqb_eq in E. subst. left. reflexivity.
  - intros H. right. apply IH, H.
Qed.

Lemma assoc_None k fs : ~ In k (map fst fs) -> assoc k fs = None.
Proof.
  induction fs as [|[k' v] r IH]; cbn; [reflexivity|].
  intros H. destruct (k =? k')%string eqn:E.
  - apply String.eqb_eq in E. subst. exfalso. apply H. left. reflexivity.
  - apply IH. intros Hin. apply H. right. exact Hin.
Qed.

Lemma catalog_lookup name :
  In name catalog_names -> exists fragment, assoc name catalog_fields = Some fragment.
Proof.
  intros H. cbn in H. decompose [or] H; subst; try contradiction; eexists; reflexivity.
Qed.

Lemma catalog_name_In name : catalog_name name = true -> In name catalog_names.
Proof.
  unfold catalog_name. intros H. apply existsb_exists in H as [x [Hin Hx]].
  apply String.eqb_eq in Hx. subst. exact Hin.
Qed.

Lemma fragments_are_structural :
  Forall (fun '(_, fragment) => structural fragment = true
                                /\ match fragment with
                                   | Obj c fs => plain c = true /\ assoc "toString" fs = None
                                   | _ => False
                                   end)
    catalog_fields.
Proof. repeat constructor. Qed.

(** The rewriting of the fields, one by one. *)
Lemma assoc_rewritten (f : value -> result value) fs fs' k :
  Forall2 (fun kv kv' => f (snd kv) = Ok (snd kv')) fs fs' ->
  map fst fs' = map fst fs ->
  match assoc k fs with
  | Some v => exists v', assoc k fs' = Some v' /\ f v = Ok v'
  | None => assoc k fs' = None
  end.
Proof.
  intros H. induction H as [|[k1 v1] [k2 v2] xs ys Hxy _ IH]; cbn; intros Hk.
  - reflexivity.
  - injection Hk as Hk1 Hk2. subst k2. cbn in Hxy.
    destruct (k =? k1)%string.
    + exists v2. split; [reflexivity | exact Hxy].
    + apply IH, Hk2.
Qed.

Lemma rewritten_forall (P : value -> Prop) fs :
  Forall (fun kv => exists c, EJSON.toJSONSchema (snd kv) = Ok c /\ P c) fs ->
  exists fs',
    EJSON.mapValues EJSON.toJSONSchema fs = Ok (obj fs')
    /\ map fst fs' = map fst fs
    /\ Forall2 (fun kv kv' => EJSON.toJSONSchema (snd kv) = Ok (snd kv')) fs fs'
    /\ Forall (fun kv' => P (snd kv')) fs'.
Proof.
  unfold EJSON.mapValues.
  induction 1 as [|[k v] r [c [Hc Pc]] _ [fs' [E [Hk [H2 HP]]]]].
  - exists []. repeat split; constructor.
  - destruct (EJSON.map_result _ r) as [r'|e] eqn:Er; cbn in E; [|discriminate].
    injection E as <-. cbn in Hc.
    exists ((k, c) :: r'). cbn. rewrite Hc. cbn. rewrite Er. cbn.
    repeat split.
    + f_equal. exact Hk.
    + constructor; [exact Hc | exact H2].
    + constructor; [exact Pc | exact HP].
Qed.

Lemma rewritten_list (P : value -> Prop) l :
  Forall (fun v => exists c, EJSON.toJSONSchema v = Ok c /\ P c) l ->
  exists l', EJSON.map_result EJSON.toJSONSchema l = Ok l' /\ Forall P l'.
Proof.
  induction 1 as [|v r [c [Hc Pc]] _ [l' [E HP]]].
  - exists []. split; constructor.
  - exists (c :: l'). cbn. rewrite Hc. cbn. rewrite E. cbn.
    split; [reflexivity | constructor; assumption].
Qed.

Lemma primitive_types_rewritten ts :
  forallb primitive_type ts = true ->
  EJSON.toJSONSchema (Arr ts) = Ok (Arr ts).
Proof.
  intros H. rewrite toJSONSchema_arr. rewrite map_result_same; [reflexivity|].
  intros x Hx. pose proof (proj1 (forallb_forall _ _) H x Hx) as Hp.
  destruct x; try discriminate. reflexivity.
Qed.

(** What the rewriter makes of a shorthand schema: a structural schema,
    and of an object without a [toString] of its own an object without
    one. *)
Lemma shorthand_rewritten v :
  shorthand v = true ->
  exists c,
    EJSON.toJSONSchema v = Ok c
    /\ structural c = true
    /\ (forall cl fs, v = Obj cl fs -> assoc "toString" fs = None ->
        exists fs', c = obj fs' /\ assoc "toString" fs' = None).
Proof.
  induction v as [ | | b | m e | s | l IH | cl fs IH | n ] using value_ind';
    intros H; try discriminate;
    try (eexists; split; [reflexivity | split; [reflexivity | intros; discriminate]]).
  - cbn [shorthand] in H.
    assert (Hall : Forall (fun v => exists c, EJSON.toJSONSchema v = Ok c
                                              /\ structural c = true) l).
    { apply Forall_forall. intros x Hx.
      destruct (proj1 (Forall_forall _ _) IH x Hx
                  (proj1 (forallb_forall _ _) H x Hx)) as [c [Hc [Sc _]]].
      exists c. split; assumption. }
    destruct (rewritten_list _ _ Hall) as [l' [E HP]].
    exists (Arr l'). rewrite toJSONSchema_arr, E. cbn.
    repeat split; [|intros; discriminate].
    apply forallb_forall. intros x Hx. apply (proj1 (Forall_forall _ _) HP x Hx).
  - cbn [shorthand] in H. apply orb_true_iff in H as [H | H].
    + destruct (assoc "type" fs) as [[| | | | t | | |]|] eqn:Ety; try discriminate.
      cbn in H. apply catalog_name_In in H.
      destruct (catalog_lookup t H) as [fragment Hf].
      exists fragment. rewrite (toJSONSchema_catalog_name cl fs t fragment Ety Hf).
      pose proof (proj1 (Forall_forall _ _) fragments_are_structural _ (assoc_In _ _ _ Hf))
        as [Hs Hn].
      repeat split; [exact Hs|]. intros cl0 fs0 _ _.
      destruct fragment as [| | | | | | fc ffs |]; try contradiction.
      destruct Hn as [Hp Hn]. destruct fc; try discriminate.
      exists ffs. split; [reflexivity | exact Hn].
    + apply andb_true_iff in H as [H H3]. apply andb_true_iff in H as [H1 H2].
      destruct cl; try discriminate.
      destruct (structural_type_misses CObject fs H2) as [r [E Hr]].
      rewrite (toJSONSchema_kept _ _ _ E Hr).
      assert (Hall : Forall (fun kv => exists c, EJSON.toJSONSchema (snd kv) = Ok c
                                                 /\ structural c = true) fs).
      { apply Forall_forall. intros [k x] Hx.
        pose proof (proj1 (Forall_forall _ _) IH (k, x) Hx) as Hk. cbn [snd] in Hk.
        destruct (Hk (proj1 (forallb_forall _ _) H3 (k, x) Hx)) as [c [Hc [Sc _]]].
        exists c. split; assumption. }
      destruct (rewritten_forall _ _ Hall) as [fs' [E' [Hk [H2' HP]]]].
      exists (obj fs'). split; [exact E'|].
      split.
      * cbn [structural obj plain]. cbn [andb].
        apply andb_true_iff. split.
        -- pose proof (assoc_rewritten _ _ _ "type" H2' Hk) as Hty.
           destruct (assoc "type" fs) as [ty|] eqn:Ety.
           ++ destruct Hty as [ty' [Ety' Hrw]]. rewrite Ety'.
              destruct ty as [| | | | t | ts | tc tfs |]; cbn [structural_type] in H2;
                try discriminate.
              ** cbn in Hrw. injection Hrw as <-. exact H2.
              ** rewrite (primitive_types_rewritten ts H2) in Hrw. injection Hrw as <-.
                 exact H2.
              ** apply andb_true_iff in H2 as [Hpl H2].
                 destruct (assoc "toString" tfs) eqn:Ets; [discriminate|].
                 pose proof (proj1 (Forall_forall _ _) IH _ (assoc_In _ _ _ Ety)) as Hk'.
                 cbn [snd] in Hk'.
                 destruct (Hk' (proj1 (forallb_forall _ _) H3 _ (assoc_In _ _ _ Ety)))
                   as [c [Hc [_ Hkeep]]].
                 rewrite Hc in Hrw. injection Hrw as <-.
                 destruct (Hkeep tc tfs eq_refl Ets) as [fs'' [-> Hn]].
                 cbn [structural_type obj plain andb]. rewrite Hn. reflexivity.
           ++ rewrite Hty. reflexivity.
        -- apply forallb_forall. intros [k x] Hx.
           apply (proj1 (Forall_forall _ _) HP (k, x) Hx).
      * intros cl0 fs0 Heq Hn. injection Heq as _ <-.
        exists fs'. split; [reflexivity|].
        pose proof (assoc_rewritten _ _ _ "toString" H2' Hk) as Hts.
        rewrite Hn in Hts. exact Hts.
Qed.
(** X1: on a shorthand schema (plain objects and arrays whose [type]
    fields are catalog names, primitive type names, lists of primitive
    type names, or plain objects without a [toString] of their own) the
    rewriter returns, and what it returns is a schema that a second
    rewriting returns unchanged. *)
Theorem rewrite_reaches_fixed_point :
  forall v,
    shorthand v = true ->
    exists c, EJSON.toJSONSchema v = Ok c /\ EJSON.toJSONSchema c = Ok c.
Proof.
  intros v H. destruct (shorthand_rewritten v H) as [c [Hc [Hs _]]].
  exists c. split; [exact Hc | apply toJSONSchema_structural, Hs].
Qed.

Lemma rewrite_reaches_fixed_point_witness :
  exists c,
    EJSON.toJSONSchema
      (obj [("type", Str "object");
            ("properties", obj [("_id", obj [("type", Str "ObjectId"); ("title", Str "key")]);
                                ("tags", obj [("type", Str "array");
                                              ("items", EJSON.typed "string")])])])
    = Ok c
    /\ EJSON.toJSONSchema c = Ok c.
Proof.
  apply (rewrite_reaches_fixed_point
           (obj [("type", Str "object");
                 ("properties",
                   obj [("_id", obj [("type", Str "ObjectId"); ("title", Str "key")]);
                        ("tags", obj [("type", Str "array");
                                      ("items", EJSON.typed "string")])])])
           eq_refl).
Defined.

(** X2: for a shorthand schema [validate] has the same outcome on the
    schema and on its rewriting, with any engine: the engine is given
    the concrete schema in both calls. *)
Theorem validate_rewritten_schema :
  forall stringify (ZSchema : Type) (new_ZSchema : ZSchema)
         validateSchema engine_validate getLastErrors o schema,
    shorthand schema = true ->
    exists concrete,
      EJSON.toJSONSchema schema = Ok concrete
      /\ EJSON.validate stringify ZSchema new_ZSchema validateSchema engine_validate
           getLastErrors o concrete
         = EJSON.validate stringify ZSchema new_ZSchema validateSchema engine_validate
             getLastErrors o schema.
Proof.
  intros stringify ZSchema new_ZSchema validateSchema engine_validate getLastErrors
    o schema H.
  destruct (shorthand_rewritten schema H) as [c [Hc [Hs _]]].
  exists c. split; [exact Hc|].
  unfold EJSON.validate. rewrite Hc, (toJSONSchema_structural c Hs). reflexivity.
Qed.

Lemma validate_rewritten_schema_witness :
  exists concrete,
    EJSON.toJSONSchema (EJSON.typed "MaxKey") = Ok concrete
    /\ validate_model (obj [("$maxKey", Int 2)]) concrete
       = validate_model (obj [("$maxKey", Int 2)]) (EJSON.typed "MaxKey").
Proof.
  apply (validate_rewritten_schema kind_stringify Engine.ZSchema Engine.new_ZSchema
           Engine.validateSchema Engine.validate Engine.getLastErrors
           (obj [("$maxKey", Int 2)]) (EJSON.typed "MaxKey") eq_refl).
Defined.

(** ** What [toJSONSchema] does to a node *)

(** X3: a node whose [type] is one of the nine catalog names is
    replaced by the fragment of that name, whatever its class and its
    other fields: the result is that of the bare [{type: name}]. *)
Theorem rewrite_replaces_catalog_types :
  forall c fs name,
    In name catalog_names ->
    assoc "type" fs = Some (Str name) ->
    (exists fragment,
        assoc name catalog_fields = Some fragment
        /\ EJSON.toJSONSchema (Obj c fs) = Ok fragment)
    /\ EJSON.toJSONSchema (Obj c fs) = EJSON.toJSONSchema (EJSON.typed name).
Proof.
  intros c fs name Hin Hty.
  destruct (catalog_lookup name Hin) as [fragment Hf].
  rewrite (toJSONSchema_catalog_name c fs name fragment Hty Hf).
  split; [exists fragment; split; [exact Hf | reflexivity]|].
  symmetry. apply (toJSONSchema_catalog_name CObject _ name fragment); [|exact Hf].
  cbn. reflexivity.
Qed.

Lemma rewrite_replaces_catalog_types_witness :
  EJSON.toJSONSchema
    (obj [("description", Str "key"); ("type", Str "Long"); ("minimum", Int 0)])
  = EJSON.toJSONSchema (EJSON.typed "Long").
Proof.
  apply (proj2 (rewrite_replaces_catalog_types CObject
                  [("description", Str "key"); ("type", Str "Long"); ("minimum", Int 0)]
                  "Long" (or_intror (or_intror (or_intror (or_intror (or_introl eq_refl)))))
                  eq_refl)).
Defined.

(** X4: a node with no [type], or whose [type] is a primitive type
    name, a list of primitive type names, or a plain object without a
    [toString] of its own, is rewritten field by field: it raises what
    the rewriting of its first failing field raises, and otherwise comes
    back as a plain object with the same keys in the same order, each
    value rewritten. *)
Theorem rewrite_keeps_other_nodes :
  forall c fs,
    structural_type (assoc "type" fs) = true ->
    EJSON.toJSONSchema (Obj c fs) = EJSON.mapValues EJSON.toJSONSchema fs
    /\ (forall r,
          EJSON.toJSONSchema (Obj c fs) = Ok r ->
          exists fs',
            r = obj fs'
            /\ map fst fs' = map fst fs
            /\ Forall2 (fun kv kv' => EJSON.toJSONSchema (snd kv) = Ok (snd kv')) fs fs').
Proof.
  intros c fs H.
  destruct (structural_type_misses c fs H) as [r [E Hr]].
  rewrite (toJSONSchema_kept _ _ _ E Hr).
  split; [reflexivity|]. intros r'. apply mapValues_keys.
Qed.

Lemma rewrite_keeps_other_nodes_witness :
  EJSON.toJSONSchema
    (obj [("type", Str "array"); ("items", obj [("type", Str "Date"); ("title", Str "at")])])
  = EJSON.mapValues EJSON.toJSONSchema
      [("type", Str "array"); ("items", obj [("type", Str "Date"); ("title", Str "at")])].
Proof.
  apply (proj1 (rewrite_keeps_other_nodes CObject
                  [("type", Str "array");
                   ("items", obj [("type", Str "Date"); ("title", Str "at")])]
                  eq_refl)).
Defined.

(** X15: on a pure structural schema (plain objects and arrays whose
    [type] fields are primitive type names, lists of them, or, for a
    property called [type], a plain object without a [toString] of its
    own)
    [toJSONSchema] returns a schema equal to its input. *)
Theorem rewrite_structural_identity :
  forall v, structural v = true -> EJSON.toJSONSchema v = Ok v.
Proof. exact toJSONSchema_structural. Qed.

Lemma rewrite_structural_identity_witness :
  structural tags_schema = true /\ EJSON.toJSONSchema tags_schema = Ok tags_schema.
Proof.
  split.
  - reflexivity.
  - apply (rewrite_structural_identity tags_schema eq_refl).
Defined.

(** ** Where the errors of [coerce] come from *)

Lemma map_result_throw {A B} (f : A -> result B) l e :
  EJSON.map_result f l = Throw e -> exists a, In a l /\ f a = Throw e.
Proof.
  induction l as [|a r IH]; cbn; [discriminate|].
  destruct (f a) as [b|e'] eqn:Ha; cbn.
  - destruct (EJSON.map_result f r) as [r'|e'] eqn:Hr; cbn; [discriminate|].
    intros H. inversion H; subst.
    destruct (IH eq_refl) as [x [Hin Hx]]. exists x. split; [right; exact Hin | exact Hx].
  - intros H. inversion H; subst. exists a. split; [left; reflexivity | exact Ha].
Qed.

(** X5: [coerce] raises only what [JSON.parse] or the decoder raises on
    one of the string leaves of the document: the parse error of that
    string, or the decoder's error on its wire form [{$oid: s}] or
    [{$date: s}]. *)
Theorem coerce_errors_come_from_leaves :
  forall deserialize o schema e,
    EJSON.coerce deserialize o schema = Throw e ->
    exists s, In s (strings o)
              /\ (JSON.parse s = Throw e
                  \/ deserialize (obj [("$oid", Str s)]) = Throw e
                  \/ deserialize (obj [("$date", Str s)]) = Throw e).
Proof.
  intros deserialize o.
  induction o as [ | | b | m x | s | l IH | c fs IH | n ] using value_ind';
    intros schema e H;
    (destruct (truthy schema) eqn:Hs;
     [| rewrite (coerce_falsy deserialize _ _ Hs) in H; discriminate]).
  - cbn in H. rewrite Hs in H. discriminate.
  - cbn in H. rewrite Hs in H. discriminate.
  - cbn in H. rewrite Hs in H. discriminate.
  - cbn in H. rewrite Hs in H. discriminate.
  - rewrite (coerce_str deserialize s schema Hs) in H. cbv zeta in H.
    exists s. split; [left; reflexivity|].
    destruct (truthy (prop schema "type")); [|discriminate].
    destruct (strict_eq_str _ "number" || strict_eq_str _ "integer"
              || strict_eq_str _ "boolean"); [left; exact H|].
    destruct (strict_eq_str _ "ObjectId"); [right; left; exact H|].
    destruct (strict_eq_str _ "Date"); [right; right; exact H | discriminate].
  - rewrite (coerce_arr deserialize l schema Hs) in H.
    destruct (EJSON.map_result _ l) as [l'|e'] eqn:E; cbn in H; [discriminate|].
    inversion H; subst e'.
    destruct (map_result_throw _ _ _ E) as [v [Hin Hv]].
    destruct (proj1 (Forall_forall _ _) IH v Hin _ _ Hv) as [s [Hs' Hor]].
    exists s. split; [|exact Hor].
    cbn. apply in_flat_map. exists v. split; assumption.
  - rewrite (coerce_obj deserialize c fs schema Hs) in H.
    destruct (EJSON.map_result _ fs) as [fs'|e'] eqn:E; cbn in H; [discriminate|].
    inversion H; subst e'.
    destruct (map_result_throw _ _ _ E) as [[k v] [Hin Hv]].
    destruct (EJSON.coerce deserialize v _) as [v'|e'] eqn:Ev; cbn in Hv; [discriminate|].
    inversion Hv; subst e'.
    destruct (proj1 (Forall_forall _ _) IH (k, v) Hin _ _ Ev) as [s [Hs' Hor]].
    exists s. split; [|exact Hor].
    cbn. apply in_flat_map. exists (k, v). split; assumption.
  - cbn in H. rewrite Hs in H. discriminate.
Qed.

Lemma coerce_errors_come_from_leaves_witness :
  exists s, In s ["1"; "4x2"]
            /\ (JSON.parse s = Throw (SyntaxError "Unexpected token in JSON")
                \/ tagging_codec (obj [("$oid", Str s)])
                   = Throw (SyntaxError "Unexpected token in JSON")
                \/ tagging_codec (obj [("$date", Str s)])
                   = Throw (SyntaxError "Unexpected token in JSON")).
Proof.
  apply (coerce_errors_come_from_leaves tagging_codec (Arr [Str "1"; Str "4x2"])
           (obj [("items", EJSON.typed "number")])
           (SyntaxError "Unexpected token in JSON") eq_refl).
Defined.

(** X6: a document with no string in it (plain objects, arrays,
    numbers, booleans, null) passes through [coerce] unchanged under
    every schema, and no error is raised. *)
Theorem coerce_leaves_string_free_documents :
  forall deserialize o schema,
    string_free o = true -> EJSON.coerce deserialize o schema = Ok o.
Proof.
  intros deserialize o.
  induction o as [ | | b | m x | s | l IH | c fs IH | n ] using value_ind';
    intros schema H;
    (destruct (truthy schema) eqn:Hs; [| apply coerce_falsy; exact Hs]);
    try (cbn; rewrite Hs; reflexivity).
  - discriminate.
  - rewrite (coerce_arr deserialize l schema Hs).
    rewrite map_result_same; [reflexivity|].
    intros v Hin. apply (proj1 (Forall_forall _ _) IH v Hin).
    cbn in H. apply (proj1 (forallb_forall _ _) H v Hin).
  - cbn in H. apply andb_true_iff in H as [Hc Hf]. destruct c; try discriminate.
    rewrite (coerce_obj deserialize CObject fs schema Hs).
    rewrite map_result_same; [reflexivity|].
    intros [k v] Hin.
    rewrite (proj1 (Forall_forall _ _) IH (k, v) Hin); [reflexivity|].
    apply (proj1 (forallb_forall _ _) Hf (k, v) Hin).
Qed.

Lemma coerce_leaves_string_free_documents_witness :
  EJSON.coerce tagging_codec (obj [("n", Int 3); ("l", Arr [Bool true; Null])])
    (obj [("properties", obj [("n", EJSON.typed "Date"); ("l", EJSON.typed "number")])])
  = Ok (obj [("n", Int 3); ("l", Arr [Bool true; Null])]).
Proof.
  apply (coerce_leaves_string_free_documents tagging_codec
           (obj [("n", Int 3); ("l", Arr [Bool true; Null])])
           (obj [("properties", obj [("n", EJSON.typed "Date"); ("l", EJSON.typed "number")])])
           eq_refl).
Defined.

(** ** [coerce] walks document and schema in step *)

(** X7: under a truthy schema the [i]-th element of the result is the
    [i]-th element of the array coerced against [schema.items], the same
    node for every element; the value of the [i]-th field of the result
    is the value of the [i]-th field of the object coerced against
    [schema.properties[key]] for the key of that field. *)
Theorem coerce_is_pointwise :
  forall deserialize schema,
    truthy schema = true ->
    (forall l r i v,
        EJSON.coerce deserialize (Arr l) schema = Ok r ->
        nth_error l i = Some v ->
        exists l' v',
          r = Arr l'
          /\ EJSON.coerce deserialize v (prop schema "items") = Ok v'
          /\ nth_error l' i = Some v')
    /\ (forall c fs r i k v,
          EJSON.coerce deserialize (Obj c fs) schema = Ok r ->
          nth_error fs i = Some (k, v) ->
          exists fs' v',
            r = obj fs'
            /\ EJSON.coerce deserialize v (and_prop (prop schema "properties") k) = Ok v'
            /\ nth_error fs' i = Some (k, v')).
Proof.
  intros deserialize schema Hs.
  assert (Hitems : forall k, and_prop schema k = prop schema k).
  { intros k. unfold and_prop. rewrite Hs. reflexivity. }
  split.
  - intros l r i v H Hi. rewrite (coerce_arr deserialize l schema Hs) in H.
    destruct (EJSON.map_result _ l) as [l'|e] eqn:E; cbn in H; [|discriminate].
    inversion H; subst r.
    destruct (map_result_nth _ _ _ _ _ E Hi) as [v' [Hv Hn]].
    rewrite Hitems in Hv. exists l', v'. repeat split; assumption.
  - intros c fs r i k v H Hi. rewrite (coerce_obj deserialize c fs schema Hs) in H.
    destruct (EJSON.map_result _ fs) as [fs'|e] eqn:E; cbn in H; [|discriminate].
    inversion H; subst r.
    destruct (map_result_nth _ _ _ _ _ E Hi) as [[k' v'] [Hv Hn]].
    cbn in Hv. rewrite Hitems in Hv.
    destruct (EJSON.coerce deserialize v _) as [w|e] eqn:Ew; cbn in Hv; [|discriminate].
    inversion Hv; subst k' v'.
    exists fs', w. repeat split; assumption.
Qed.

Lemma coerce_is_pointwise_witness :
  exists l' v',
    Arr [Int 1; Int 2] = Arr l'
    /\ EJSON.coerce tagging_codec (Str "2") (EJSON.typed "number") = Ok v'
    /\ nth_error l' 1 = Some v'.
Proof.
  apply (proj1 (coerce_is_pointwise tagging_codec
                  (obj [("type", Str "array"); ("items", EJSON.typed "number")]) eq_refl)
           [Str "1"; Str "2"] (Arr [Int 1; Int 2]) 1%nat (Str "2") eq_refl eq_refl).
Defined.

Lemma map_result_first_throw {A B} (f : A -> result B) before a after e :
  (forall x, In x before -> exists y, f x = Ok y) ->
  f a = Throw e ->
  EJSON.map_result f (before ++ a :: after)%list = Throw e.
Proof.
  intros Hb Ha. induction before as [|x r IH]; cbn.
  - rewrite Ha. reflexivity.
  - destruct (Hb x (or_introl eq_refl)) as [y Hy]. rewrite Hy. cbn.
    rewrite IH by (intros z Hz; apply Hb; right; exact Hz). reflexivity.
Qed.

(** X8: the first failure ends the traversal.  When the elements of an
    array (the fields of an object) before some position coerce well and
    the one at that position raises, [coerce] of the whole raises that
    same error, whatever comes after. *)
Theorem coerce_raises_first_error :
  forall deserialize schema e,
    truthy schema = true ->
    (forall before v after,
        (forall x, In x before ->
           exists y, EJSON.coerce deserialize x (prop schema "items") = Ok y) ->
        EJSON.coerce deserialize v (prop schema "items") = Throw e ->
        EJSON.coerce deserialize (Arr (before ++ v :: after)%list) schema = Throw e)
    /\ (forall c before k v after,
          (forall k' x, In (k', x) before ->
             exists y,
               EJSON.coerce deserialize x (and_prop (prop schema "properties") k') = Ok y) ->
          EJSON.coerce deserialize v (and_prop (prop schema "properties") k) = Throw e ->
          EJSON.coerce deserialize (Obj c (before ++ (k, v) :: after)%list) schema = Throw e).
Proof.
  intros deserialize schema e Hs.
  assert (Hitems : forall k, and_prop schema k = prop schema k).
  { intros k. unfold and_prop. rewrite Hs. reflexivity. }
  split.
  - intros before v after Hb Hv. rewrite (coerce_arr deserialize _ schema Hs).
    rewrite (map_result_first_throw _ before v after e); [reflexivity | | ].
    + intros x Hx. rewrite Hitems. apply Hb, Hx.
    + rewrite Hitems. exact Hv.
  - intros c before k v after Hb Hv. rewrite (coerce_obj deserialize c _ schema Hs).
    rewrite (map_result_first_throw _ before (k, v) after e); [reflexivity | | ].
    + intros [k' x] Hx. rewrite Hitems.
      destruct (Hb k' x Hx) as [y Hy]. rewrite Hy. cbn. eexists. reflexivity.
    + rewrite Hitems, Hv. reflexivity.
Qed.

Lemma coerce_raises_first_error_witness :
  EJSON.coerce tagging_codec (Arr ([Str "1"] ++ Str "x" :: [Str "y"; Str "3"])%list)
    (obj [("items", EJSON.typed "number")])
  = Throw (SyntaxError "Unexpected token in JSON").
Proof.
  apply (proj1 (coerce_raises_first_error tagging_codec
                  (obj [("items", EJSON.typed "number")])
                  (SyntaxError "Unexpected token in JSON") eq_refl)
           [Str "1"] (Str "x") [Str "y"; Str "3"]).
  - intros x [Hx | []]. subst x. eexists. reflexivity.
  - reflexivity.
Defined.

(** X9: a string is never coerced against a rewritten extended-type
    node.  Once [toJSONSchema] has replaced [{type: name}] by the
    fragment of the catalog, [coerce] returns the string as it is, for
    ["ObjectId"] and ["Date"] too: the decoder is reached through the
    shorthand schema only. *)
Theorem coerce_ignores_rewritten_types :
  forall deserialize c fs name s,
    In name catalog_names ->
    assoc "type" fs = Some (Str name) ->
    exists fragment,
      EJSON.toJSONSchema (Obj c fs) = Ok fragment
      /\ EJSON.coerce deserialize (Str s) fragment = Ok (Str s).
Proof.
  intros deserialize c fs name s Hin Hty.
  destruct (catalog_lookup name Hin) as [fragment Hf].
  exists fragment. split; [apply (toJSONSchema_catalog_name c fs name fragment Hty Hf)|].
  apply assoc_In in Hf. cbn in Hf.
  decompose [or] Hf; try contradiction;
    match goal with E : (_, _) = (_, _) |- _ => inversion E; reflexivity end.
Qed.

Lemma coerce_ignores_rewritten_types_witness :
  (exists fragment,
      EJSON.toJSONSchema (EJSON.typed "ObjectId") = Ok fragment
      /\ EJSON.coerce tagging_codec (Str "507f1f77bcf86cd799439011") fragment
         = Ok (Str "507f1f77bcf86cd799439011"))
  /\ EJSON.coerce tagging_codec (Str "507f1f77bcf86cd799439011") (EJSON.typed "ObjectId")
     = Ok (Obj (CClass "decoded") [("$oid", Str "507f1f77bcf86cd799439011")]).
Proof.
  split.
  - apply (coerce_ignores_rewritten_types tagging_codec CObject [("type", Str "ObjectId")]
             "ObjectId" "507f1f77bcf86cd799439011"
             (or_intror (or_intror (or_intror (or_intror (or_intror (or_introl eq_refl))))))
             eq_refl).
  - reflexivity.
Defined.

(** X10: of a truthy schema node [coerce] reads [type], [items] and
    [properties] and nothing else: two nodes that agree on these three
    give the same result on every document, whatever their other
    keywords ([required], [default], [enum], ...). *)
Theorem coerce_reads_three_keywords :
  forall deserialize o s1 s2,
    truthy s1 = true -> truthy s2 = true ->
    prop s1 "type" = prop s2 "type" ->
    prop s1 "items" = prop s2 "items" ->
    prop s1 "properties" = prop s2 "properties" ->
    EJSON.coerce deserialize o s1 = EJSON.coerce deserialize o s2.
Proof.
  intros deserialize o s1 s2 H1 H2 Ht Hi Hp.
  destruct o.
  - cbn. rewrite H1, H2. reflexivity.
  - cbn. rewrite H1, H2. reflexivity.
  - cbn. rewrite H1, H2. reflexivity.
  - cbn. rewrite H1, H2. reflexivity.
  - rewrite (coerce_str _ _ _ H1), (coerce_str _ _ _ H2), Ht. reflexivity.
  - rewrite (coerce_arr _ _ _ H1), (coerce_arr _ _ _ H2).
    unfold and_prop. rewrite H1, H2, Hi. reflexivity.
  - rewrite (coerce_obj _ _ _ _ H1), (coerce_obj _ _ _ _ H2).
    unfold and_prop at 2 4. rewrite H1, H2, Hp. reflexivity.
  - cbn. rewrite H1, H2. reflexivity.
Qed.

Lemma coerce_reads_three_keywords_witness :
  EJSON.coerce tagging_codec (obj [("a", Str "1")])
    (obj [("properties", obj [("a", EJSON.typed "number")]); ("required", Arr [Str "b"])])
  = EJSON.coerce tagging_codec (obj [("a", Str "1")])
      (obj [("properties", obj [("a", EJSON.typed "number")])]).
Proof.
  apply (coerce_reads_three_keywords tagging_codec (obj [("a", Str "1")])
           (obj [("properties", obj [("a", EJSON.typed "number")]);
                 ("required", Arr [Str "b"])])
           (obj [("properties", obj [("a", EJSON.typed "number")])])
           eq_refl eq_refl eq_refl eq_refl eq_refl).
Defined.

(** ** The type predicates tell the types apart *)

Lemma bsontype_is_true v tag :
  EJSON.bsontype_is v tag = Ok true -> prop v "_bsontype" = Str tag.
Proof.
  unfold EJSON.bsontype_is, get_prop. destruct (nullish v); cbn; [discriminate|].
  intros H. injection H as E. apply strict_eq_str_true, E.
Qed.

(** X11: no value is of two types at once for the predicates that read
    [_bsontype]: when two of them answer true on the same value they are
    the same predicate.  A value is not both a date and a regular
    expression, and on [undefined], where [isUndefined] answers true,
    [isDate] and [isRegex] answer false. *)
Theorem predicates_are_exclusive :
  forall v,
    (forall T isT U isU,
        In (T, isT) tag_predicates -> In (U, isU) tag_predicates ->
        isT v = Ok true -> isU v = Ok true -> T = U)
    /\ (EJSON.isDate v = Ok true -> EJSON.isRegex v = Ok false)
    /\ (EJSON.isUndefined v = Ok true ->
        EJSON.isDate v = Ok false /\ EJSON.isRegex v = Ok false).
Proof.
  intros v. repeat split.
  - intros T isT U isU HT HU Ht Hu.
    cbn in HT, HU.
    decompose [or] HT; try contradiction;
      match goal with E : (_, _) = (T, isT) |- _ => inversion E; subst T isT; clear E end;
      decompose [or] HU; try contradiction;
      match goal with E : (_, _) = (U, isU) |- _ => inversion E; subst U isU; clear E end;
      try reflexivity;
      apply bsontype_is_true in Ht; apply bsontype_is_true in Hu;
      rewrite Ht in Hu; discriminate.
  - destruct v as [| | | | | |c fs|]; cbn; try discriminate. destruct c; cbn; try discriminate.
    reflexivity.
  - destruct v; cbn in *; try discriminate; reflexivity.
  - destruct v; cbn in *; try discriminate; reflexivity.
Qed.

Lemma predicates_are_exclusive_witness :
  EJSON.isRegex (Types.new_Date 0) = Ok false.
Proof.
  apply (proj1 (proj2 (predicates_are_exclusive (Types.new_Date 0))) eq_refl).
Defined.

(** ** Decimal numerals *)

Ltac digit_step IH :=
  unfold JSON.digits; fold JSON.digits;
  match goal with
  | |- context [digit_of ?ch] =>
      let r := eval vm_compute in (digit_of ch) in change (digit_of ch) with r
  end;
  cbv iota beta;
  match goal with
  | |- JSON.digits _ ?z _ = (Z.of_nat (Nat.of_uint_acc _ ?n), _, _) =>
      replace z with (Z.of_nat n) by (rewrite Nat.tail_mul_spec; lia)
  end;
  rewrite IH; f_equal; f_equal; lia.

Lemma digits_numeral d : forall a c,
  JSON.digits (NilEmpty.string_of_uint d) (Z.of_nat a) c
  = (Z.of_nat (Nat.of_uint_acc d a), (c + Decimal.nb_digits d)%nat, EmptyString).
Proof.
  induction d; intros a c; cbn [NilEmpty.string_of_uint Nat.of_uint_acc Decimal.nb_digits];
    try digit_step IHd.
  cbn. rewrite Nat.add_0_r. reflexivity.
Qed.

Lemma nzhead_no_zero d d' : Decimal.nzhead d <> Decimal.D0 d'.
Proof. induction d; cbn; try discriminate. exact IHd. Qed.

Lemma to_uint_normal n :
  Nat.to_uint n = Decimal.D0 Decimal.Nil
  \/ (Nat.to_uint n <> Decimal.Nil /\ forall d, Nat.to_uint n <> Decimal.D0 d).
Proof.
  assert (H : Decimal.unorm (Nat.to_uint n) = Nat.to_uint n).
  { rewrite <- Unsigned.to_of, Unsigned.of_to. reflexivity. }
  revert H. generalize (Nat.to_uint n). intros d H.
  unfold Decimal.unorm in H.
  destruct (Decimal.nzhead d) eqn:E.
  - left. symmetry. exact H.
  - exfalso. apply (nzhead_no_zero d u E).
  - right. subst d. split; [discriminate|]. intros; discriminate.
  - right. subst d. split; [discriminate|]. intros; discriminate.
  - right. subst d. split; [discriminate|]. intros; discriminate.
  - right. subst d. split; [discriminate|]. intros; discriminate.
  - right. subst d. split; [discriminate|]. intros; discriminate.
  - right. subst d. split; [discriminate|]. intros; discriminate.
  - right. subst d. split; [discriminate|]. intros; discriminate.
  - right. subst d. split; [discriminate|]. intros; discriminate.
  - right. subst d. split; [discriminate|]. intros; discriminate.
Qed.

Lemma parse_value_digit fuel a r k :
  digit_of a = Some k ->
  JSON.parse_value (S fuel) (String a r) = JSON.parse_number (String a r).
Proof.
  destruct a as [[] [] [] [] [] [] [] []]; intros H; vm_compute in H;
    try discriminate H; reflexivity.
Qed.

Lemma parse_number_digit a r k :
  digit_of a = Some (S k) ->
  JSON.parse_number (String a r)
  = match
      match JSON.digits r (Z.of_nat (S k)) 1 with
      | (_, O, _) => None
      | (n, _, r') => Some (n, r')
      end
    with
    | None => None
    | Some (n, s2) =>
        match JSON.parse_frac n s2 with
        | None => None
        | Some (m, e1, s3) =>
            match JSON.parse_exp s3 with
            | None => None
            | Some (e2, s4) => Some (JSON.number (1 * m) (e1 + e2), s4)
            end
        end
    end.
Proof.
  destruct a as [[] [] [] [] [] [] [] []]; intros H; vm_compute in H;
    try discriminate H; injection H as <-; reflexivity.
Qed.

Lemma number_integer n : JSON.number (1 * n) (0 + 0) = Int n.
Proof.
  unfold JSON.number, Int. rewrite Z.mul_1_l. cbn [Z.add Z.leb Z.compare Z.pow Z.pow_pos].
  destruct (n =? 0) eqn:E.
  - apply Z.eqb_eq in E. subst. reflexivity.
  - cbn. rewrite Z.mul_1_r. reflexivity.
Qed.

Lemma parse_value_numeral d fuel :
  d <> Decimal.Nil -> (forall d', d <> Decimal.D0 d') ->
  JSON.parse_value (S fuel) (NilEmpty.string_of_uint d)
  = Some (Int (Z.of_nat (Nat.of_uint d)), EmptyString).
Proof.
  intros Hn Hz.
  destruct d; try (exfalso; apply Hn; reflexivity); try (exfalso; apply (Hz d); reflexivity).
  all: cbn [NilEmpty.string_of_uint].
  all: erewrite parse_value_digit by reflexivity.
  all: erewrite parse_number_digit by reflexivity.
  all: rewrite digits_numeral.
  all: cbn [Nat.add JSON.parse_frac JSON.parse_exp].
  all: rewrite number_integer.
  all: reflexivity.
Qed.

Lemma parse_numeral n : JSON.parse (numeral n) = Ok (Int (Z.of_nat n)).
Proof.
  unfold JSON.parse, numeral.
  replace (2 * String.length (NilEmpty.string_of_uint (Nat.to_uint n)) + 2)%nat
    with (S (2 * String.length (NilEmpty.string_of_uint (Nat.to_uint n)) + 1))%nat by lia.
  destruct (to_uint_normal n) as [H | [Hn Hz]].
  - assert (n = 0%nat) as -> by (apply Unsigned.to_uint_inj; exact H).
    reflexivity.
  - rewrite (parse_value_numeral _ _ Hn Hz), Unsigned.of_to. reflexivity.
Qed.

(** X12: under a node of type ["number"] or ["integer"] the decimal
    numeral of a natural number up to 2^53, the range in which every
    integer is a number of the host, is coerced to that number. *)
Theorem coerce_decimal_numerals :
  forall deserialize n schema,
    Z.of_nat n <= 2 ^ 53 ->
    truthy schema = true ->
    prop schema "type" = Str "number" \/ prop schema "type" = Str "integer" ->
    EJSON.coerce deserialize (Str (numeral n)) schema = Ok (Int (Z.of_nat n)).
Proof.
  intros deserialize n schema _ Hs Hty.
  rewrite (coerce_str deserialize _ schema Hs). cbv zeta.
  destruct Hty as [E | E]; rewrite E; cbn; apply parse_numeral.
Qed.

Lemma coerce_decimal_numerals_witness :
  EJSON.coerce tagging_codec (Str (numeral 2016)) (EJSON.typed "integer")
  = Ok (Int (Z.of_nat 2016)).
Proof.
  apply (coerce_decimal_numerals tagging_codec 2016 (EJSON.typed "integer")).
  - vm_compute. discriminate.
  - reflexivity.
  - right. reflexivity.
Defined.

(** ** A [type] given as a list *)

(** X13: the catalog is looked up with the string form of [type], so a
    one-element list [[name]] of a catalog name is rewritten like the
    name itself, while a list of two or more strings names nothing and
    the node is rewritten field by field. *)
Theorem rewrite_reads_type_lists :
  forall c fs,
    (forall name,
        In name catalog_names ->
        assoc "type" fs = Some (Arr [Str name]) ->
        EJSON.toJSONSchema (Obj c fs) = EJSON.toJSONSchema (EJSON.typed name))
    /\ (forall a b r,
          Forall (fun t => isString t = true) (a :: b :: r) ->
          assoc "type" fs = Some (Arr (a :: b :: r)) ->
          EJSON.toJSONSchema (Obj c fs) = EJSON.mapValues EJSON.toJSONSchema fs).
Proof.
  intros c fs. split.
  - intros name Hin Hty.
    destruct (catalog_lookup name Hin) as [fragment Hf].
    transitivity (Ok fragment : result value);
      [| symmetry;
         apply (toJSONSchema_catalog_name CObject [("type", Str name)] name fragment
                  eq_refl Hf)].
    rewrite toJSONSchema_obj. cbv zeta. unfold prop at 1 2 3. rewrite Hty.
    unfold EJSON.catalog_entry.
    change (EJSON.key_of (Arr [Str name])) with (Ok (Some name) : result (option string)).
    cbn [truthy bind].
    unfold prop, EJSON.ejsonSchemas, obj.
    change (assoc name _) with (assoc name catalog_fields). rewrite Hf.
    apply assoc_In in Hf. cbn in Hf.
    decompose [or] Hf; try contradiction;
      match goal with E : (_, _) = (_, _) |- _ => inversion E; reflexivity end.
  - intros a b r Hstr Hty.
    assert (E : EJSON.catalog_entry (Arr (a :: b :: r)) = Ok Undefined).
    { unfold EJSON.catalog_entry. cbn [EJSON.key_of].
      assert (Hk : exists ks,
                 EJSON.map_result
                   (fun x => if nullish x then Ok (Some EmptyString) else EJSON.key_of x)
                   (a :: b :: r) = Ok ks
                 /\ List.length ks = List.length (a :: b :: r)).
      { generalize (a :: b :: r) Hstr. intros l Hl.
        induction Hl as [|x xs Hx _ [ks [Ek Lk]]].
        - exists []. split; reflexivity.
        - destruct x; try discriminate. cbn. rewrite Ek. cbn.
          eexists. split; [reflexivity | cbn; rewrite Lk; reflexivity]. }
      destruct Hk as [ks [Ek Lk]]. rewrite Ek. cbn [bind].
      destruct ks as [|k1 [|k2 ks]]; try discriminate. reflexivity. }
    apply (toJSONSchema_kept c fs Undefined).
    + unfold prop. rewrite Hty. cbn [truthy]. exact E.
    + apply andb_false_r.
Qed.

Lemma rewrite_reads_type_lists_witness :
  EJSON.toJSONSchema (obj [("type", Arr [Str "Date"])]) = EJSON.toJSONSchema (EJSON.typed "Date")
  /\ EJSON.toJSONSchema (obj [("type", Arr [Str "Date"; Str "null"])])
     = EJSON.mapValues EJSON.toJSONSchema [("type", Arr [Str "Date"; Str "null"])].
Proof.
  split.
  - apply (proj1 (rewrite_reads_type_lists CObject [("type", Arr [Str "Date"])])
             "Date" (or_introl eq_refl) eq_refl).
  - apply (proj2 (rewrite_reads_type_lists CObject [("type", Arr [Str "Date"; Str "null"])])
             (Str "Date") (Str "null") []).
    + repeat constructor.
    + reflexivity.
Defined.

(** ** The fragments of the catalog are strict *)

Lemma flat_map_nil_forallb (d : string -> bool) (m : string -> string)
  (fs : list (string * value)) :
  flat_map (fun '(k, _) => if d k then [] else [m k]) fs = [] ->
  forallb (fun '(k, _) => d k) fs = true.
Proof.
  induction fs as [|[k v] r IH]; cbn; [reflexivity|].
  destruct (d k); cbn; [exact IH | discriminate].
Qed.

Ltac strict_fragment H :=
  cbn -[assoc] in H;
  let Hreq := fresh "Hreq" in
  apply List.app_eq_nil in H as [Hreq H];
  match type of Hreq with
  | context [assoc ?tag ?fs] => destruct (assoc tag fs) eqn:?; [|discriminate Hreq]
  end;
  apply List.app_eq_nil in H as [_ H];
  rewrite List.app_nil_r in H;
  split; [eexists; reflexivity | apply flat_map_nil_forallb in H; exact H].

(** X14: on the model engine every fragment of the catalog is strict: a
    document it accepts is an object that holds the required tag key and
    no key the fragment does not declare. *)
Theorem catalog_fragments_are_strict :
  forall name fragment doc,
    In (name, fragment) catalog_fields ->
    Engine.check fragment doc = [] ->
    exists c fs tag,
      doc = Obj c fs
      /\ required_tag fragment = Some tag
      /\ (exists v, assoc tag fs = Some v)
      /\ forallb (fun '(k, _) => declared fragment k) fs = true.
Proof.
  intros name fragment doc Hin H.
  cbn in Hin.
  decompose [or] Hin; try contradiction;
    match goal with E : (_, _) = (name, fragment) |- _ => inversion E; subst; clear E end;
    (destruct doc as [| | | | | | c fs |]; try (vm_compute in H; discriminate H));
    exists c, fs; eexists; (split; [reflexivity|]); (split; [reflexivity|]).
  all: strict_fragment H.
Qed.

Lemma catalog_fragments_are_strict_witness :
  exists c fs tag,
    obj [("$regex", Str "a+"); ("$options", Str "g")] = Obj c fs
    /\ required_tag EJSON.Regex = Some tag
    /\ (exists v, assoc tag fs = Some v)
    /\ forallb (fun '(k, _) => declared EJSON.Regex k) fs = true.
Proof.
  apply (catalog_fragments_are_strict "Regex" EJSON.Regex
           (obj [("$regex", Str "a+"); ("$options", Str "g")])).
  - do 6 right. left. reflexivity.
  - reflexivity.
Defined.
